(** * valet: the Valentine state tracker and its HTTP handlers (src/app.py)

    A shallow embedding of [ValentineState] and of the Flask views that
    drive it, with the properties of the specification proved against it.

    Python values are a small tagged union (what [request.get_json()] can
    produce); the tracker object is a record; every method and view is a
    computation in a state-and-exception monad over that record, so that
    [raise], [try ... except Exception] and [abort] are modelled the way the
    source writes them.  What [logger] writes is not modelled (a file and a
    stream that no method or view reads back), but the text of a log line is
    formed inside the method that logs it, and forming it can raise: that is
    modelled where the text holds a caller's value. *)

From Stdlib Require Import ZArith String List Bool.
From stdpp Require Import base gmap strings list.

Local Open Scope string_scope.
Local Open Scope Z_scope.
Set Warnings "-register-all".

(** ** Python values *)

(** An IEEE double as far as truth testing needs it: zero (of either sign)
    is the only falsy float; NaN and the infinities are truthy. *)
Inductive pyfloat : Type :=
| FNaN
| FInf (negative : bool)
| FFinite (negative : bool) (mantissa : N) (exponent : Z).

Inductive PyVal : Type :=
| VNone
| VBool (b : bool)
| VInt (n : Z)
| VFloat (f : pyfloat)
| VStr (s : string)
| VList (items : list PyVal)
| VDict (entries : list (string * PyVal)).

(** [bool(v)], the test behind [not v] and [if v]. *)
Definition truthy (v : PyVal) : bool :=
  match v with
  | VNone => false
  | VBool b => b
  | VInt n => negb (n =? 0)
  | VFloat (FFinite _ m _) => negb (m =? 0)%N
  | VFloat _ => true
  | VStr s => negb (String.eqb s "")
  | VList items => match items with [] => false | _ => true end
  | VDict entries => match entries with [] => false | _ => true end
  end.

(** [isinstance(v, str)] *)
Definition isinstance_str (v : PyVal) : bool :=
  match v with VStr _ => true | _ => false end.

(** [v == 'literal']: a value equals a string literal only when it is a
    string with the same characters. *)
Definition py_eq_str (v : PyVal) (lit : string) : bool :=
  match v with VStr s => String.eqb s lit | _ => false end.

(** [v in [lit1, lit2, ...]]: a left-to-right scan with [==]. *)
Fixpoint py_in_strs (v : PyVal) (lits : list string) : bool :=
  match lits with
  | [] => false
  | lit :: rest => py_eq_str v lit || py_in_strs v rest
  end.

(** [type(v).__name__] *)
Definition type_name (v : PyVal) : string :=
  match v with
  | VNone => "NoneType"
  | VBool _ => "bool"
  | VInt _ => "int"
  | VFloat _ => "float"
  | VStr _ => "str"
  | VList _ => "list"
  | VDict _ => "dict"
  end.

(** ** Arguments of a direct method call *)

(** A value as a caller hands it to a method, together with what happens
    when the interpreter turns it into text ([str], [repr], an f-string):
    [str_raises] says that the conversion raises.  It does for an [int]
    beyond the digit limit of integer-to-string conversion (4300 digits by
    default from Python 3.11 on; no limit before, or when the limit is
    switched off) and for a list or dict that holds one. *)
Record PyObj : Type := mkObj { py_value : PyVal; str_raises : bool }.

(** A value that [json.loads] delivered.  Its text can always be formed:
    the parser reads an [int] under the same digit limit, so it delivers
    none that cannot be converted back. *)
Definition delivered (v : PyVal) : PyObj :=
  {| py_value := v; str_raises := false |}.
Coercion delivered : PyVal >-> PyObj.

(** [sys.get_int_max_str_digits()] as Python 3.11 ships it. *)
Definition int_max_str_digits : Z := 4300.

(** The values whose text CPython 3.11 refuses to form under that limit:
    an [int] of more than 4300 decimal digits, wherever it sits. *)
Fixpoint exceeds_digit_limit (v : PyVal) : bool :=
  match v with
  | VInt n => 10 ^ int_max_str_digits <=? Z.abs n
  | VList items => existsb exceeds_digit_limit items
  | VDict entries =>
      existsb (fun entry => match entry with (_, w) => exceeds_digit_limit w end)
              entries
  | _ => false
  end.

(** A value as a direct caller hands it over under CPython 3.11. *)
Definition python311 (v : PyVal) : PyObj :=
  {| py_value := v; str_raises := exceeds_digit_limit v |}.

(** ** Exceptions and outcomes *)

(** The exceptions the modelled code meets.  Every one derives from
    [Exception], so [except Exception] catches each of them; an f-string
    message is kept as its literal text together with the values it
    interpolates.  [HTTPException code] is what [flask.abort(code)] raises
    (werkzeug's [HTTPException] is a subclass of [Exception]);
    [LibraryError] stands for whatever else a collaborator (the JSON
    parser, the template renderer, the file sender) may raise. *)
Inductive exn : Type :=
| ValueError (msg : string) (interpolated : list PyVal)
| AttributeError (msg : string)
| HTTPException (code : Z)
| LibraryError (name msg : string).

Inductive outcome (A : Type) : Type :=
| Returned (a : A)
| Raised (e : exn).
Arguments Returned {A} a.
Arguments Raised {A} e.

(** ** The tracker object *)

Record ValentineState : Type := mkState {
  states : list string;
  current_state : PyVal;
  user_choices : gmap string PyVal
}.

(** The ten labels of [__init__], in source order. *)
Definition STATES : list string :=
  [ "loading"; "ambient_idle"; "intro_text"; "presence_acknowledgement";
    "distance_visualization"; "personal_memory"; "valentine_question";
    "decision_state"; "confirmation_state"; "gentle_exit_state" ].

(** [ValentineState.__init__] *)
Definition init : ValentineState :=
  {| states := STATES; current_state := VStr "loading"; user_choices := ∅ |}.

(** ** The monad: state of the tracker, and a result or a raised exception.
    A write made before an exception is raised stays made. *)
Definition M (A : Type) : Type := ValentineState -> outcome A * ValentineState.

Definition ret {A} (a : A) : M A := fun st => (Returned a, st).

Definition bind {A B} (c : M A) (k : A -> M B) : M B :=
  fun st =>
    match c st with
    | (Returned a, st') => k a st'
    | (Raised e, st') => (Raised e, st')
    end.

Definition raise {A} (e : exn) : M A := fun st => (Raised e, st).

(** [try: body  except Exception as e: handler(e)] *)
Definition try_except {A} (body : M A) (handler : exn -> M A) : M A :=
  fun st =>
    match body st with
    | (Returned a, st') => (Returned a, st')
    | (Raised e, st') => handler e st'
    end.

(** Reads and writes of the attributes of [self]. *)
Definition get_states : M (list string) := fun st => (Returned (states st), st).
Definition get_current_state : M PyVal := fun st => (Returned (current_state st), st).
Definition set_current_state (v : PyVal) : M unit :=
  fun st => (Returned tt,
             {| states := states st; current_state := v;
                user_choices := user_choices st |}).
(** [self.user_choices[key] = v] *)
Definition set_user_choice (key : string) (v : PyVal) : M unit :=
  fun st => (Returned tt,
             {| states := states st; current_state := current_state st;
                user_choices := <[key := v]> (user_choices st) |}).

Notation "'do' x <- c ; k" := (bind c (fun x => k))
  (at level 10, x name, c at level 100, k at level 200,
   format "'[v' 'do'  x  <-  c ; '/' k ']'").
Notation "'exec' c ; k" := (bind c (fun _ => k))
  (at level 10, c at level 100, k at level 200,
   format "'[v' 'exec'  c ; '/' k ']'").

(** ** The methods of [ValentineState] *)

(** [validate_state]: a string that is one of [self.states]. *)
Definition validate_state (state : PyVal) : M bool :=
  if negb (isinstance_str state) then ret false
  else
    do labels <- get_states;
    if negb (py_in_strs state labels) then ret false
    else ret true.

(** [transition_to] *)
Definition transition_to (new_state : PyVal) : M bool :=
  try_except
    (do valid <- validate_state new_state;
     if negb valid
     then raise (ValueError "Invalid state transition to: " [new_state])
     else
       do old_state <- get_current_state;
       exec set_current_state new_state;
       ret true)
    (fun e => ret false).

(** An f-string that interpolates [args]: forming it raises [ValueError]
    as soon as one of them cannot be turned into text (the message, which
    only the log would show, is abridged). *)
Definition format_args (args : list PyObj) : M unit :=
  if existsb str_raises args
  then raise (ValueError "Exceeds the limit for integer string conversion" [])
  else ret tt.

(** [record_choice] (the method).  The subscript assignment needs a key;
    past the [isinstance] test [choice_type] is a string.  The log line
    [f"User choice recorded: {choice_type} = {choice_value}"] is formed
    inside the [try], after the assignment. *)
Definition record_choice (choice_type choice_value : PyObj) : M bool :=
  try_except
    (if negb (isinstance_str (py_value choice_type))
        || negb (truthy (py_value choice_value))
     then raise (ValueError "Invalid choice parameters" [])
     else
       match py_value choice_type with
       | VStr key =>
           exec set_user_choice key (py_value choice_value);
           exec format_args [choice_type; choice_value];
           ret true
       | _ => raise (ValueError "Invalid choice parameters" [])
       end)
    (fun e => ret false).

(** ** Responses and the collaborators of the views *)

Inductive body : Type :=
| Json (obj : list (string * PyVal))                    (* jsonify({...}) *)
| Html (text : string)                                  (* a plain string *)
| Page (template : string) (args : list (string * PyVal))
| FileContents (directory filename mimetype : string).  (* a streamed file *)

Record response : Type := mkResponse { status : Z; payload : body }.

(** What the views consume from outside the tracker: the file system as
    [pathlib] shows it, [mimetypes], [str(e)] of a caught exception, the
    template renderer and the file sender.  Paths are the strings that
    [Path] is built from. *)
Record Env : Type := mkEnv {
  path_exists : string -> bool;                (* Path(p).exists() *)
  path_resolve : string -> string;             (* str(Path(p).resolve()) *)
  guess_type : string -> option string;        (* mimetypes.guess_type(f)[0] *)
  str_exn : exn -> string;                     (* str(e) *)
  render_template : string -> list (string * PyVal) -> outcome body;
  send_from_directory : string -> string -> string -> outcome response
}.

(** The environment a request is served in: what the collaborators answer
    when they answer, and the error a file-system call raises instead, if it
    does ([Path.exists] and [Path.resolve] let [PermissionError] and other
    [OSError]s through). *)
Record World : Type := mkWorld {
  env_of : Env;
  exists_fault : string -> option exn;
  resolve_fault : string -> option exn
}.

(** An environment in which no file-system call fails. *)
Definition no_fault (env : Env) : World :=
  {| env_of := env;
     exists_fault := fun _ => None;
     resolve_fault := fun _ => None |}.
Coercion no_fault : Env >-> World.

(** [Path(p).exists()] *)
Definition py_exists (world : World) (p : string) : outcome bool :=
  match exists_fault world p with
  | Some e => Raised e
  | None => Returned (path_exists (env_of world) p)
  end.

(** [str(Path(p).resolve())] *)
Definition py_resolve (world : World) (p : string) : outcome string :=
  match resolve_fault world p with
  | Some e => Raised e
  | None => Returned (path_resolve (env_of world) p)
  end.

(** A call into a collaborator: it returns or raises, and does not touch
    the tracker. *)
Definition lift {A} (o : outcome A) : M A := fun st => (o, st).

(** [flask.abort(code)] *)
Definition abort {A} (code : Z) : M A := raise (HTTPException code).

(** [Path(dir) / name] for a single path segment [name] (the route's
    string converter accepts no slash). *)
Definition path_join (dir name : string) : string := dir ++ "/" ++ name.

(** [data.get(key)]: only a dict has the method; a missing key gives
    [None].  [entries] lists the items of the dict, keys distinct. *)
Fixpoint dict_lookup (key : string) (entries : list (string * PyVal)) : option PyVal :=
  match entries with
  | [] => None
  | (k, v) :: rest => if String.eqb k key then Some v else dict_lookup key rest
  end.

Definition py_get (data : PyVal) (key : string) : outcome PyVal :=
  match data with
  | VDict entries =>
      Returned (match dict_lookup key entries with Some v => v | None => VNone end)
  | _ =>
      Raised (AttributeError ("'" ++ type_name data ++ "' object has no attribute 'get'"))
  end.

(** [all([...])] *)
Definition py_all (bs : list bool) : bool := forallb (fun b => b) bs.

(** ** The views *)

Module App.

(** [GET /] *)
Definition index (world : World) : M response :=
  let env := env_of world in
  try_except
    (exec transition_to (VStr "loading");
     do video_exists <- lift (py_exists world "static/videos/valentine-video.mp4");
     do template_exists <- lift (py_exists world "templates/index.html");
     if negb template_exists
     then ret (mkResponse 500 (Html "Template error - but love finds a way! ❤️"))
     else
       do page <- lift (render_template env "index.html"
                          [("video_exists", VBool video_exists)]);
       ret (mkResponse 200 page))
    (fun e =>
       ret (mkResponse 500
              (Html ("Error loading page, but love persists! ❤️<br>Error: "
                     ++ str_exn env e)))).

(** [POST /api/state/<state_name>]: the URL segment is always a string. *)
Definition transition_state (env : Env) (state_name : string) : M response :=
  try_except
    (do valid <- validate_state (VStr state_name);
     if negb valid
     then ret (mkResponse 400
                 (Json [("error", VStr "Invalid state"); ("success", VBool false)]))
     else
       do success <- transition_to (VStr state_name);
       if negb success
       then ret (mkResponse 500
                   (Json [("error", VStr "State transition failed");
                          ("success", VBool false)]))
       else
         do cur <- get_current_state;
         ret (mkResponse 200
                (Json [("success", VBool true);
                       ("current_state", cur);
                       ("message", VStr ("Transitioned to " ++ state_name))])))
    (fun e =>
       ret (mkResponse 500
              (Json [("error", VStr (str_exn env e)); ("success", VBool false)]))).

(** [POST /api/choice].  [get_json] is what [request.get_json()] does: the
    parsed body, [None], or an exception. *)
Definition record_choice (env : Env) (get_json : outcome PyVal) : M response :=
  try_except
    (do data <- lift get_json;
     if negb (truthy data)
     then ret (mkResponse 400
                 (Json [("error", VStr "No data provided"); ("success", VBool false)]))
     else
       do choice_type <- lift (py_get data "type");
       do choice_value <- lift (py_get data "value");
       if negb (truthy choice_type) || negb (truthy choice_value)
       then ret (mkResponse 400
                   (Json [("error", VStr "Missing choice data");
                          ("success", VBool false)]))
       else
         do success <- record_choice choice_type choice_value;
         if negb success
         then ret (mkResponse 500
                     (Json [("error", VStr "Failed to record choice");
                            ("success", VBool false)]))
         else
           let response_data :=
             [("success", VBool true); ("choice_recorded", VBool true)] in
           do response_data <-
             (if py_eq_str choice_type "valentine_response"
              then
                if py_eq_str choice_value "yes"
                then
                  exec transition_to (VStr "confirmation_state");
                  ret (response_data ++
                         [("next_state", VStr "confirmation_state");
                          ("message", VStr "Love is in the air! 💕")])%list
                else if py_in_strs choice_value ["maybe"; "friends"]
                then
                  exec transition_to (VStr "gentle_exit_state");
                  ret (response_data ++
                         [("next_state", VStr "gentle_exit_state");
                          ("message", VStr "Your feelings are valid ❤️")])%list
                else ret response_data
              else ret response_data);
           ret (mkResponse 200 (Json response_data)))
    (fun e =>
       ret (mkResponse 500
              (Json [("error", VStr (str_exn env e)); ("success", VBool false)]))).

(** [GET /api/health] *)
Definition health_check (world : World) : M response :=
  let env := env_of world in
  try_except
    (do template_exists <- lift (py_exists world "templates/index.html");
     do static_dir_exists <- lift (py_exists world "static");
     do video_exists <- lift (py_exists world "static/videos/valentine-video.mp4");
     do cur <- get_current_state;
     do arg <- get_current_state;
     do state_valid <- validate_state arg;
     let checks :=
       [("template_exists", VBool template_exists);
        ("static_dir_exists", VBool static_dir_exists);
        ("video_exists", VBool video_exists);
        ("current_state", cur);
        ("state_valid", VBool state_valid)] in
     let all_good := py_all [template_exists; static_dir_exists; state_valid] in
     ret (mkResponse 200
            (Json [("status", VStr (if all_good then "healthy" else "degraded"));
                   ("checks", VDict checks);
                   ("message", VStr "Love is always healthy! ❤️")])))
    (fun e =>
       ret (mkResponse 500
              (Json [("status", VStr "unhealthy"); ("error", VStr (str_exn env e))]))).

(** [GET /static/videos/<filename>] *)
Definition serve_video (world : World) (filename : string) : M response :=
  let env := env_of world in
  try_except
    (let video_dir := "static/videos" in
     let video_path := path_join video_dir filename in
     do resolved_path <- lift (py_resolve world video_path);
     do resolved_dir <- lift (py_resolve world video_dir);
     exec (if negb (String.prefix resolved_dir resolved_path)
           then abort 403 else ret tt);
     do present <- lift (py_exists world video_path);
     exec (if negb present
           then abort 404 else ret tt);
     let mimetype :=
       match guess_type env filename with
       | Some m => if String.eqb m "" then "video/mp4" else m
       | None => "video/mp4"
       end in
     lift (send_from_directory env "static/videos" filename mimetype))
    (fun e => abort 500).

End App.

(** The status line Flask sends for what a view did: the view's own status
    when it returns; the code of an [HTTPException] that leaves the view
    (the registered 404 and 500 error handlers keep that code); 500 for any
    other exception. *)
Definition http_status (o : outcome response) : Z :=
  match o with
  | Returned r => status r
  | Raised (HTTPException code) => code
  | Raised _ => 500
  end.

(** ** Requests and reachable tracker states *)

(** The routes of the application, each with what the view receives. *)
Inductive request : Type :=
| GetIndex
| PostState (state_name : string)
| PostChoice (get_json : outcome PyVal)
| GetHealth
| GetVideo (filename : string).

Definition handle_request (world : World) (r : request) : M response :=
  match r with
  | GetIndex => App.index world
  | PostState state_name => App.transition_state (env_of world) state_name
  | PostChoice get_json => App.record_choice (env_of world) get_json
  | GetHealth => App.health_check world
  | GetVideo filename => App.serve_video world filename
  end.

(** The states the global [valentine_state] can be in: as constructed, and
    after any request (served under any environment, failing file-system
    calls included) or any direct call of a method, with any arguments. *)
Inductive reachable : ValentineState -> Prop :=
| reach_init : reachable init
| reach_request (world : World) r st :
    reachable st -> reachable (snd (handle_request world r st))
| reach_validate v st :
    reachable st -> reachable (snd (validate_state v st))
| reach_transition v st :
    reachable st -> reachable (snd (transition_to v st))
| reach_record (ty v : PyObj) st :
    reachable st -> reachable (snd (record_choice ty v st)).

(** [current_state] is a string and one of [labels]. *)
Definition member_of (labels : list string) (v : PyVal) : Prop :=
  exists s, v = VStr s /\ In s labels.

(** An entry of the object a view answers with, when it answers JSON. *)
Definition json_field (key : string) (r : response) : option PyVal :=
  match payload r with
  | Json obj => dict_lookup key obj
  | _ => None
  end.

(** The invariant of the tracker: the label list is the one [__init__]
    built, and [current_state] is one of its members. *)
Definition tracker_inv (st : ValentineState) : Prop :=
  states st = STATES /\ member_of STATES (current_state st).

(** A computation keeps a property of the tracker, however it ends. *)
Definition preserves {A} (I : ValentineState -> Prop) (c : M A) : Prop :=
  forall st, I st -> I (snd (c st)).

(** The specification's wording of the first test of [record_choice]:
    "type is a non-empty string". *)
Definition spec_nonempty_str (v : PyVal) : bool :=
  match v with VStr s => negb (String.eqb s "") | _ => false end.

(** A deployment to evaluate the views in: the working directory is
    [/srv/valet], it holds [static], [static/videos] (empty) and
    [templates/index.html], and there are no symbolic links. *)
Definition demo_env : Env :=
  {| path_exists := fun p =>
       String.eqb p "static" || String.eqb p "static/videos"
       || String.eqb p "static/videos/.." || String.eqb p "templates/index.html";
     path_resolve := fun p =>
       if String.eqb p "static/videos/.." then "/srv/valet/static"
       else "/srv/valet/" ++ p;
     guess_type := fun _ => None;
     str_exn := fun e =>
       match e with
       | ValueError msg _ => msg
       | AttributeError msg => msg
       | HTTPException _ => "HTTPException"
       | LibraryError _ msg => msg
       end;
     render_template := fun t args => Returned (Page t args);
     send_from_directory := fun d f m =>
       Returned (mkResponse 200 (FileContents d f m)) |}.

(** The same deployment once [static/videos/valentine-video.mp4] is in
    place. *)
Definition with_video (env : Env) : Env :=
  {| path_exists := fun p =>
       String.eqb p "static/videos/valentine-video.mp4" || path_exists env p;
     path_resolve := path_resolve env;
     guess_type := guess_type env;
     str_exn := str_exn env;
     render_template := render_template env;
     send_from_directory := send_from_directory env |}.

(** ** Sequences of operations *)

(** One operation on the tracker: a request served by its view, or a
    direct call of one of the three methods. *)
Definition step (st st' : ValentineState) : Prop :=
  (exists (world : World) r, st' = snd (handle_request world r st))
  \/ (exists v, st' = snd (validate_state v st))
  \/ (exists v, st' = snd (transition_to v st))
  \/ (exists ty v : PyObj, st' = snd (record_choice ty v st)).

(** The states the tracker can be in when it is driven through the HTTP
    routes only. *)
Inductive served : ValentineState -> Prop :=
| served_init : served init
| served_request (world : World) r st :
    served st -> served (snd (handle_request world r st)).

(** ** The error handlers *)

(** [not_found_error], registered with [@app.errorhandler(404)] *)
Definition not_found_error (env : Env) : outcome response :=
  match render_template env "error.html"
          [("error_code", VInt 404);
           ("error_message", VStr "Page not found, but love is everywhere! 💕")]
  with
  | Returned page => Returned (mkResponse 404 page)
  | Raised e => Raised e
  end.

(** [internal_error], registered with [@app.errorhandler(500)] *)
Definition internal_error (env : Env) : outcome response :=
  match render_template env "error.html"
          [("error_code", VInt 500);
           ("error_message",
            VStr "Something went wrong, but our love is unbreakable! ❤️")]
  with
  | Returned page => Returned (mkResponse 500 page)
  | Raised e => Raised e
  end.

(** [too_large], registered for [RequestEntityTooLarge] (HTTP 413) *)
Definition too_large : outcome response :=
  Returned (mkResponse 413
    (Json [("error",
            VStr "File too large! Love should be limitless, but files have limits 😅")])).

(** The handlers the application registers, by HTTP code. *)
Definition errorhandler (env : Env) (code : Z) : option (outcome response) :=
  if code =? 404 then Some (not_found_error env)
  else if code =? 500 then Some (internal_error env)
  else if code =? 413 then Some too_large
  else None.

(** What becomes of a view's outcome: an [HTTPException] that leaves the
    view is answered by the handler registered for its code; any other
    outcome, and a code without a handler, is left as it is (to Flask's own
    default handling). *)
Definition respond (env : Env) (o : outcome response) : outcome response :=
  match o with
  | Raised (HTTPException code) =>
      match errorhandler env code with
      | Some answer => answer
      | None => o
      end
  | _ => o
  end.

(** The MIME type [serve_video] passes on:
    [mimetypes.guess_type(filename)[0] or 'video/mp4']. *)
Definition video_mimetype (env : Env) (filename : string) : string :=
  match guess_type env filename with
  | Some m => if String.eqb m "" then "video/mp4" else m
  | None => "video/mp4"
  end.

(** A deployment in which [static/videos/clip.mp4] is a symbolic link into
    the sibling directory [static/videos_private]. *)
Definition sibling_env : Env :=
  {| path_exists := fun p =>
       String.eqb p "static" || String.eqb p "static/videos"
       || String.eqb p "static/videos/clip.mp4";
     path_resolve := fun p =>
       if String.eqb p "static/videos/clip.mp4"
       then "/srv/valet/static/videos_private/clip.mp4"
       else "/srv/valet/" ++ p;
     guess_type := fun _ => Some "video/mp4";
     str_exn := str_exn demo_env;
     render_template := render_template demo_env;
     send_from_directory := send_from_directory demo_env |}.

(** The demo deployment after [templates] has lost its search permission:
    asking whether [templates/index.html] exists raises. *)
Definition locked_templates : World :=
  {| env_of := demo_env;
     exists_fault := fun p =>
       if String.eqb p "templates/index.html"
       then Some (LibraryError "PermissionError"
                    "[Errno 13] Permission denied: 'templates/index.html'")
       else None;
     resolve_fault := fun _ => None |}.

(** * Properties *)

(** ** Evaluation of the methods *)

Lemma py_in_strs_In s labels : py_in_strs (VStr s) labels = true <-> In s labels.
Proof.
  induction labels as [|l labels IH]; simpl.
  - split; [discriminate | tauto].
  - rewrite orb_true_iff, IH, String.eqb_eq. split; intros [H|H]; auto.
Qed.

Lemma py_in_strs_member v labels :
  isinstance_str v && py_in_strs v labels = true <-> member_of labels v.
Proof.
  split.
  - intros H. apply andb_true_iff in H as [Hs Hin].
    destruct v; try discriminate. exists s. split; [reflexivity|].
    now apply py_in_strs_In.
  - intros (s & -> & Hin). simpl. now apply py_in_strs_In.
Qed.

(** [validate_state] returns the conjunction of its two tests and writes
    nothing. *)
Lemma validate_state_run v st :
  validate_state v st =
  (Returned (isinstance_str v && py_in_strs v (states st)), st).
Proof.
  unfold validate_state.
  destruct (isinstance_str v); simpl; [|reflexivity].
  unfold bind, get_states.
  destruct (py_in_strs v (states st)); reflexivity.
Qed.

Lemma transition_to_run v st :
  transition_to v st =
  if isinstance_str v && py_in_strs v (states st)
  then (Returned true,
        {| states := states st; current_state := v;
           user_choices := user_choices st |})
  else (Returned false, st).
Proof.
  unfold transition_to, try_except, bind.
  rewrite validate_state_run.
  destruct (isinstance_str v && py_in_strs v (states st)); reflexivity.
Qed.

(** The method on any two arguments: the write happens whenever the two
    tests pass; the result is true unless forming the log line raises. *)
Lemma record_choice_obj_run (ty v : PyObj) st :
  record_choice ty v st =
  match py_value ty with
  | VStr key =>
      if truthy (py_value v)
      then (Returned (negb (str_raises ty || str_raises v)),
            {| states := states st; current_state := current_state st;
               user_choices := <[key := py_value v]> (user_choices st) |})
      else (Returned false, st)
  | _ => (Returned false, st)
  end.
Proof.
  unfold record_choice, try_except, format_args.
  destruct ty as [tyv tyr], v as [vv vr]; cbn [py_value str_raises existsb].
  destruct tyv; simpl; try reflexivity.
  destruct (truthy vv); [|reflexivity].
  rewrite orb_false_r. unfold bind, set_user_choice.
  destruct (tyr || vr); reflexivity.
Qed.

(** The method on values that [json.loads] delivered. *)
Lemma record_choice_run (ty v : PyVal) st :
  record_choice ty v st =
  match ty with
  | VStr key =>
      if truthy v
      then (Returned true,
            {| states := states st; current_state := current_state st;
               user_choices := <[key := v]> (user_choices st) |})
      else (Returned false, st)
  | _ => (Returned false, st)
  end.
Proof. rewrite record_choice_obj_run. reflexivity. Qed.

(** ** The tracker methods *)

(** C1, as the specification words it, fails: the method tests
    [isinstance(choice_type, str)] only, so the empty string is accepted as
    a choice type and the call records under the key [""] and returns
    true. *)
Lemma record_choice_accepts_empty_type :
  ~ (forall st ty v,
        spec_nonempty_str ty = false \/ truthy v = false ->
        record_choice ty v st = (Returned false, st)).
Proof.
  intros H.
  specialize (H init (VStr "") (VStr "yes") (or_introl eq_refl)).
  rewrite record_choice_run in H. simpl in H. discriminate H.
Qed.

(** C1 (amended): [record_choice(type, value)] returns false and leaves the
    tracker as it was whenever [type] is not a string or [value] is falsy;
    otherwise, for every string [type] (the empty one included), it sets
    [choices[type] = value], inserting or overwriting that key and no
    other, and it returns true provided the log line of the recording can
    be formed, that is, turning [type] and [value] into text does not
    raise. *)
Theorem record_choice_spec (st : ValentineState) (ty v : PyObj) :
  (isinstance_str (py_value ty) = false \/ truthy (py_value v) = false ->
   record_choice ty v st = (Returned false, st))
  /\
  (forall key, py_value ty = VStr key -> truthy (py_value v) = true ->
     user_choices (snd (record_choice ty v st))
       = <[key := py_value v]> (user_choices st)
     /\ user_choices (snd (record_choice ty v st)) !! key = Some (py_value v)
     /\ (forall k, k <> key ->
           user_choices (snd (record_choice ty v st)) !! k = user_choices st !! k)
     /\ (str_raises ty = false -> str_raises v = false ->
         fst (record_choice ty v st) = Returned true)).
Proof.
  split.
  - intros [Hty | Hv]; rewrite record_choice_obj_run.
    + destruct (py_value ty); try reflexivity. discriminate Hty.
    + destruct (py_value ty); try reflexivity. now rewrite Hv.
  - intros key Hkey Hv. rewrite record_choice_obj_run, Hkey, Hv.
    cbn [fst snd user_choices]. split; [reflexivity|]. split; [|split].
    + apply lookup_insert_eq.
    + intros k Hk. now apply lookup_insert_ne.
    + intros -> ->. reflexivity.
Qed.

Lemma record_choice_spec_witness :
  record_choice (VInt 7) (VStr "yes") init = (Returned false, init)
  /\ user_choices (snd (record_choice (VStr "") (VStr "yes") init)) !! ""
     = Some (VStr "yes")
  /\ fst (record_choice (VStr "") (VStr "yes") init) = Returned true.
Proof.
  split.
  - apply (proj1 (record_choice_spec init (VInt 7) (VStr "yes"))).
    left. reflexivity.
  - destruct (proj2 (record_choice_spec init (VStr "") (VStr "yes")) ""
                eq_refl eq_refl) as (_ & Hget & _ & Htrue).
    split; [exact Hget | apply Htrue; reflexivity].
Defined.

(** C2: for every argument [L] and every prior state, [transition_to(L)]
    returns false and leaves the tracker unchanged when [validate_state(L)]
    is false; when it is true the call returns true and [current_state] is
    [L] afterwards, whatever it was before. *)
Theorem transition_to_spec (st : ValentineState) (L : PyVal) :
  (fst (validate_state L st) = Returned false ->
   transition_to L st = (Returned false, st))
  /\
  (fst (validate_state L st) = Returned true ->
   fst (transition_to L st) = Returned true
   /\ current_state (snd (transition_to L st)) = L
   /\ fst (get_current_state (snd (transition_to L st))) = Returned L).
Proof.
  rewrite validate_state_run, transition_to_run. simpl.
  destruct (isinstance_str L && py_in_strs L (states st)); split;
    intros H; try discriminate H; try reflexivity.
  simpl. repeat split.
Qed.

Lemma transition_to_spec_witness :
  transition_to (VInt 3) init = (Returned false, init)
  /\ current_state
       (snd (transition_to (VStr "personal_memory")
               (snd (transition_to (VStr "gentle_exit_state") init))))
     = VStr "personal_memory".
Proof.
  split.
  - apply (proj1 (transition_to_spec init (VInt 3))). reflexivity.
  - apply (proj2 (transition_to_spec _ (VStr "personal_memory"))).
    vm_compute. reflexivity.
Defined.

(** C9: the frame of the three methods.  [record_choice] never changes
    [current_state] (nor the label list), [transition_to] never changes the
    choices mapping (nor the label list), and [validate_state] changes
    nothing at all; so recording a ["valentine_response"] moves the state
    only through the view's own call of [transition_to]. *)
Theorem tracker_frame (st : ValentineState) (ty v : PyObj) (L : PyVal) :
  current_state (snd (record_choice ty v st)) = current_state st
  /\ states (snd (record_choice ty v st)) = states st
  /\ user_choices (snd (transition_to L st)) = user_choices st
  /\ states (snd (transition_to L st)) = states st
  /\ snd (validate_state L st) = st.
Proof.
  rewrite record_choice_obj_run, transition_to_run, validate_state_run.
  repeat split.
  - destruct (py_value ty); try reflexivity.
    destruct (truthy (py_value v)); reflexivity.
  - destruct (py_value ty); try reflexivity.
    destruct (truthy (py_value v)); reflexivity.
  - destruct (isinstance_str L && py_in_strs L (states st)); reflexivity.
  - destruct (isinstance_str L && py_in_strs L (states st)); reflexivity.
Qed.

(** ** Preservation of a tracker property through the monad *)

Section Preservation.
Variable I : ValentineState -> Prop.

Lemma preserves_ret {A} (a : A) : preserves I (ret a).
Proof. intros st H. exact H. Qed.

Lemma preserves_raise {A} (e : exn) : preserves I (@raise A e).
Proof. intros st H. exact H. Qed.

Lemma preserves_lift {A} (o : outcome A) : preserves I (lift o).
Proof. intros st H. exact H. Qed.

Lemma preserves_get_current_state : preserves I get_current_state.
Proof. intros st H. exact H. Qed.

Lemma preserves_validate_state v : preserves I (validate_state v).
Proof. intros st H. now rewrite validate_state_run. Qed.

Lemma preserves_bind {A B} (c : M A) (k : A -> M B) :
  preserves I c -> (forall a, preserves I (k a)) -> preserves I (bind c k).
Proof.
  intros Hc Hk st H. unfold bind.
  specialize (Hc st H). destruct (c st) as [[a|e] st']; simpl in *.
  - now apply Hk.
  - exact Hc.
Qed.

Lemma preserves_try_except {A} (c : M A) (h : exn -> M A) :
  preserves I c -> (forall e, preserves I (h e)) -> preserves I (try_except c h).
Proof.
  intros Hc Hh st H. unfold try_except.
  specialize (Hc st H). destruct (c st) as [[a|e] st']; simpl in *.
  - exact Hc.
  - now apply Hh.
Qed.

Lemma preserves_if {A} (b : bool) (c1 c2 : M A) :
  preserves I c1 -> preserves I c2 -> preserves I (if b then c1 else c2).
Proof. destruct b; auto. Qed.
End Preservation.

Lemma preserves_transition_to v : preserves tracker_inv (transition_to v).
Proof.
  intros st [Hst Hcur]. rewrite transition_to_run.
  destruct (isinstance_str v && py_in_strs v (states st)) eqn:Hv; simpl.
  - split; simpl; [exact Hst|].
    apply py_in_strs_member in Hv. now rewrite Hst in Hv.
  - split; assumption.
Qed.

Lemma preserves_record_choice ty v : preserves tracker_inv (record_choice ty v).
Proof.
  intros st [Hst Hcur]. rewrite record_choice_obj_run.
  destruct (py_value ty); try (split; assumption).
  destruct (truthy (py_value v)); split; assumption.
Qed.

(** One step of a preservation proof, following the shape of the code. *)
Ltac preserve_step :=
  lazymatch goal with
  | |- preserves _ (try_except _ _) => apply preserves_try_except; [|intros ?]
  | |- preserves _ (bind _ _) => apply preserves_bind; [|intros ?]
  | |- preserves _ (if _ then _ else _) => apply preserves_if
  | |- preserves _ (ret _) => apply preserves_ret
  | |- preserves _ (raise _) => apply preserves_raise
  | |- preserves _ (abort _) => apply preserves_raise
  | |- preserves _ (lift _) => apply preserves_lift
  | |- preserves _ get_current_state => apply preserves_get_current_state
  | |- preserves _ (validate_state _) => apply preserves_validate_state
  | |- preserves _ (transition_to _) => apply preserves_transition_to
  | |- preserves _ (record_choice _ _) => apply preserves_record_choice
  end.

Lemma preserves_handle_request env r : preserves tracker_inv (handle_request env r).
Proof.
  destruct r; simpl.
  - unfold App.index; cbv zeta. repeat preserve_step.
  - unfold App.transition_state. repeat preserve_step.
  - unfold App.record_choice; cbv zeta. repeat preserve_step.
  - unfold App.health_check; cbv zeta. repeat preserve_step.
  - unfold App.serve_video; cbv zeta. repeat preserve_step.
Qed.

Lemma tracker_inv_init : tracker_inv init.
Proof.
  split; [reflexivity|]. exists "loading". split; [reflexivity|].
  simpl. auto.
Qed.

Lemma reachable_tracker_inv st : reachable st -> tracker_inv st.
Proof.
  induction 1 as [|env r st _ IH|v st _ IH|v st _ IH|ty v st _ IH].
  - exact tracker_inv_init.
  - now apply preserves_handle_request.
  - now apply preserves_validate_state.
  - now apply preserves_transition_to.
  - now apply preserves_record_choice.
Qed.

(** C8: in every reachable state of the tracker (after [__init__], any
    sequence of requests to any route and any direct method calls)
    [current_state] is one of the ten labels. *)
Theorem current_state_always_valid (st : ValentineState) :
  reachable st ->
  member_of
    [ "loading"; "ambient_idle"; "intro_text"; "presence_acknowledgement";
      "distance_visualization"; "personal_memory"; "valentine_question";
      "decision_state"; "confirmation_state"; "gentle_exit_state" ]
    (current_state st).
Proof. intros H. apply (reachable_tracker_inv st H). Qed.

Lemma current_state_always_valid_witness :
  member_of STATES
    (current_state
       (snd (handle_request demo_env
               (PostChoice (Returned (VDict [("type", VStr "valentine_response");
                                             ("value", VStr "friends")])))
               (snd (handle_request demo_env (PostState "intro_text") init))))).
Proof.
  apply current_state_always_valid.
  apply reach_request. apply reach_request. apply reach_init.
Defined.

(** C3: on the tracker as the program runs it, [validate_state] is true
    for each of the ten labels, false for every other string, and false
    for everything that is not a string; it never raises and never writes. *)
Theorem validate_state_spec (st : ValentineState) :
  reachable st ->
  (forall L,
      In L [ "loading"; "ambient_idle"; "intro_text"; "presence_acknowledgement";
             "distance_visualization"; "personal_memory"; "valentine_question";
             "decision_state"; "confirmation_state"; "gentle_exit_state" ] ->
      validate_state (VStr L) st = (Returned true, st))
  /\ (forall s,
        ~ In s [ "loading"; "ambient_idle"; "intro_text";
                 "presence_acknowledgement"; "distance_visualization";
                 "personal_memory"; "valentine_question"; "decision_state";
                 "confirmation_state"; "gentle_exit_state" ] ->
        validate_state (VStr s) st = (Returned false, st))
  /\ (forall v, isinstance_str v = false ->
        validate_state v st = (Returned false, st)).
Proof.
  intros Hreach. destruct (reachable_tracker_inv st Hreach) as [Hst _].
  split; [|split].
  - intros L HL. rewrite validate_state_run, Hst.
    change (isinstance_str (VStr L)) with true. rewrite andb_true_l.
    now rewrite (proj2 (py_in_strs_In L STATES) HL).
  - intros s Hs. rewrite validate_state_run, Hst.
    change (isinstance_str (VStr s)) with true. rewrite andb_true_l.
    destruct (py_in_strs (VStr s) STATES) eqn:E; [|reflexivity].
    apply py_in_strs_In in E. contradiction.
  - intros v Hv. now rewrite validate_state_run, Hv.
Qed.

Lemma validate_state_spec_witness :
  validate_state (VStr "decision_state") init = (Returned true, init)
  /\ validate_state (VStr "Loading") init = (Returned false, init)
  /\ validate_state (VList [VStr "loading"]) init = (Returned false, init).
Proof.
  destruct (validate_state_spec init reach_init) as (Hin & Hout & Hnon).
  split; [|split].
  - apply Hin. simpl. tauto.
  - apply Hout. simpl. intros H. decompose [or] H; try discriminate; assumption.
  - apply Hnon. reflexivity.
Defined.

(** ** The views *)

(** C6: a label that [validate_state] accepts is accepted by
    [transition_to]; hence the state-transition view answers 200 or 400 and
    its "State transition failed" branch is never taken. *)
Theorem transition_failure_branch_dead (env : Env) (st : ValentineState) :
  (forall L, fst (validate_state L st) = Returned true ->
             fst (transition_to L st) = Returned true)
  /\ (forall state_name,
        fst (App.transition_state env state_name st) <>
          Returned (mkResponse 500
                      (Json [("error", VStr "State transition failed");
                             ("success", VBool false)]))
        /\ (http_status (fst (App.transition_state env state_name st)) = 200
            \/ http_status (fst (App.transition_state env state_name st)) = 400)).
Proof.
  split.
  - intros L. rewrite validate_state_run, transition_to_run. simpl.
    destruct (isinstance_str L && py_in_strs L (states st)); [reflexivity|].
    intros H; discriminate H.
  - intros state_name.
    unfold App.transition_state, try_except, bind.
    rewrite validate_state_run.
    destruct (isinstance_str (VStr state_name)
              && py_in_strs (VStr state_name) (states st)) eqn:Hv.
    + cbn [negb]. rewrite transition_to_run, Hv. cbn.
      split; [discriminate | left; reflexivity].
    + cbn. split; [discriminate | right; reflexivity].
Qed.

Lemma transition_failure_branch_dead_witness :
  fst (transition_to (VStr "ambient_idle") init) = Returned true.
Proof.
  apply (proj1 (transition_failure_branch_dead demo_env init)).
  vm_compute. reflexivity.
Defined.

(** C10: the "Failed to record choice" branch of the choice view is live.
    Whenever the JSON body is an object whose [type] is truthy but not a
    string and whose [value] is truthy, the presence test passes, the
    method returns false on its [isinstance] test, and the view answers
    HTTP 500 with that message, the tracker untouched. *)
Theorem choice_failure_branch_live
    (env : Env) (st : ValentineState)
    (entries : list (string * PyVal)) (ty v : PyVal) :
  dict_lookup "type" entries = Some ty ->
  dict_lookup "value" entries = Some v ->
  truthy ty = true -> isinstance_str ty = false -> truthy v = true ->
  fst (record_choice ty v st) = Returned false
  /\ App.record_choice env (Returned (VDict entries)) st =
       (Returned (mkResponse 500
                    (Json [("error", VStr "Failed to record choice");
                           ("success", VBool false)])), st).
Proof.
  intros Hty Hv Tty Sty Tv.
  assert (Hrun : record_choice ty v st = (Returned false, st)).
  { rewrite record_choice_run. destruct ty; try reflexivity. discriminate Sty. }
  split; [now rewrite Hrun|].
  unfold App.record_choice, try_except, bind, lift.
  assert (Hdata : truthy (VDict entries) = true).
  { destruct entries; [discriminate Hty | reflexivity]. }
  rewrite Hdata. cbn [negb py_get]. rewrite Hty, Hv, Tty, Tv.
  cbn [negb orb]. rewrite Hrun. reflexivity.
Qed.

Lemma choice_failure_branch_live_witness :
  http_status
    (fst (App.record_choice demo_env
            (Returned (VDict [("type", VInt 5); ("value", VStr "yes")])) init))
  = 500.
Proof.
  rewrite (proj2 (choice_failure_branch_live demo_env init
                    [("type", VInt 5); ("value", VStr "yes")]
                    (VInt 5) (VStr "yes")
                    eq_refl eq_refl eq_refl eq_refl eq_refl)).
  reflexivity.
Defined.

(** C5: the health view always answers 200, and its status is ["healthy"]
    exactly when the main template exists, the static root exists and
    [current_state] is a member of the label list; in every other case it
    is ["degraded"].  Whether the video file exists does not enter: two
    environments that agree on the template and on the static root give the
    same status. *)
Theorem health_check_spec (env : Env) (st : ValentineState) :
  exists r,
    App.health_check env st = (Returned r, st)
    /\ status r = 200
    /\ (json_field "status" r = Some (VStr "healthy") <->
        path_exists env "templates/index.html" = true
        /\ path_exists env "static" = true
        /\ member_of (states st) (current_state st))
    /\ (json_field "status" r = Some (VStr "healthy")
        \/ json_field "status" r = Some (VStr "degraded"))
    /\ (forall env',
          path_exists env' "templates/index.html"
            = path_exists env "templates/index.html" ->
          path_exists env' "static" = path_exists env "static" ->
          exists r',
            App.health_check env' st = (Returned r', st)
            /\ json_field "status" r' = json_field "status" r).
Proof.
  unfold App.health_check, try_except, bind, get_current_state, lift, py_exists;
    cbv zeta.
  cbn [no_fault exists_fault env_of].
  rewrite validate_state_run.
  set (valid := isinstance_str (current_state st)
                && py_in_strs (current_state st) (states st)).
  assert (Hvalid : valid = true <-> member_of (states st) (current_state st))
    by apply py_in_strs_member.
  eexists. split; [reflexivity|]. split; [reflexivity|].
  unfold json_field, py_all; cbn [payload dict_lookup forallb].
  change (String.eqb "status" "status") with true. cbv iota.
  split; [|split].
  - rewrite <- Hvalid.
    destruct (path_exists env "templates/index.html"),
             (path_exists env "static"), valid; cbn;
      split; try (intros H; discriminate H); try tauto;
      intros (H1 & H2 & H3); discriminate.
  - destruct (path_exists env "templates/index.html"),
             (path_exists env "static"), valid; cbn; auto.
  - intros env' HT HS.
    unfold try_except, bind.
    cbn [no_fault exists_fault env_of].
    eexists. split; [reflexivity|].
    cbn [payload dict_lookup forallb].
    change (String.eqb "status" "status") with true. cbv iota.
    now rewrite HT, HS.
Qed.

Lemma health_check_spec_witness :
  exists r',
    App.health_check (with_video demo_env) init = (Returned r', init)
    /\ json_field "status" r' = Some (VStr "healthy").
Proof.
  destruct (health_check_spec demo_env init)
    as (r & Hrun & _ & Hiff & _ & Hvideo).
  destruct (Hvideo (with_video demo_env) eq_refl eq_refl) as (r' & Hrun' & Hr').
  exists r'. split; [exact Hrun'|].
  rewrite Hr'. apply Hiff.
  split; [reflexivity|]. split; [reflexivity|].
  exists "loading". split; [reflexivity|]. simpl. auto.
Defined.

(** C4: when the choice view records a ["valentine_response"], value
    ["yes"] leaves the tracker in [confirmation_state] and answers with the
    "Love is in the air" message; ["maybe"] and ["friends"] leave it in
    [gentle_exit_state] and answer with the "Your feelings are valid"
    message; every other value leaves [current_state] as it was and answers
    with the bare acknowledgement.  In each case the choice is recorded. *)
Theorem valentine_response_spec
    (env : Env) (st : ValentineState)
    (entries : list (string * PyVal)) (v : PyVal) :
  reachable st ->
  dict_lookup "type" entries = Some (VStr "valentine_response") ->
  dict_lookup "value" entries = Some v ->
  truthy v = true ->
  let run := App.record_choice env (Returned (VDict entries)) st in
  user_choices (snd run) = <["valentine_response" := v]> (user_choices st)
  /\ (v = VStr "yes" ->
      current_state (snd run) = VStr "confirmation_state"
      /\ fst run =
           Returned (mkResponse 200
                       (Json [("success", VBool true);
                              ("choice_recorded", VBool true);
                              ("next_state", VStr "confirmation_state");
                              ("message", VStr "Love is in the air! 💕")])))
  /\ (v = VStr "maybe" \/ v = VStr "friends" ->
      current_state (snd run) = VStr "gentle_exit_state"
      /\ fst run =
           Returned (mkResponse 200
                       (Json [("success", VBool true);
                              ("choice_recorded", VBool true);
                              ("next_state", VStr "gentle_exit_state");
                              ("message", VStr "Your feelings are valid ❤️")])))
  /\ (v <> VStr "yes" -> v <> VStr "maybe" -> v <> VStr "friends" ->
      current_state (snd run) = current_state st
      /\ fst run =
           Returned (mkResponse 200
                       (Json [("success", VBool true);
                              ("choice_recorded", VBool true)]))).
Proof.
  intros Hreach Hty Hv Tv run.
  destruct (reachable_tracker_inv st Hreach) as [Hst _].
  assert (Hdata : truthy (VDict entries) = true).
  { destruct entries; [discriminate Hty | reflexivity]. }
  assert (Hrun : run =
    try_except (fun _ =>
    bind (if py_eq_str v "yes"
          then exec transition_to (VStr "confirmation_state");
               ret ([("success", VBool true); ("choice_recorded", VBool true)] ++
                    [("next_state", VStr "confirmation_state");
                     ("message", VStr "Love is in the air! 💕")])%list
          else if py_in_strs v ["maybe"; "friends"]
          then exec transition_to (VStr "gentle_exit_state");
               ret ([("success", VBool true); ("choice_recorded", VBool true)] ++
                    [("next_state", VStr "gentle_exit_state");
                     ("message", VStr "Your feelings are valid ❤️")])%list
          else ret [("success", VBool true); ("choice_recorded", VBool true)])
         (fun response_data => ret (mkResponse 200 (Json response_data)))
         {| states := states st; current_state := current_state st;
            user_choices := <["valentine_response" := v]> (user_choices st) |})
      (fun e =>
         ret (mkResponse 500
                (Json [("error", VStr (str_exn env e)); ("success", VBool false)])))
      st).
  { subst run. unfold App.record_choice, try_except, lift.
    unfold bind at 1. rewrite Hdata. cbn [negb py_get].
    unfold bind at 1. rewrite Hty. unfold bind at 1. rewrite Hv.
    change (truthy (VStr "valentine_response")) with true. rewrite Tv.
    cbn [negb orb]. unfold bind at 1. rewrite record_choice_run, Tv.
    cbn [negb]. change (py_eq_str (VStr "valentine_response") "valentine_response")
      with true. cbv iota.
    reflexivity. }
  assert (Hconf : forall s0, states s0 = STATES ->
            transition_to (VStr "confirmation_state") s0 =
            (Returned true, {| states := states s0;
                               current_state := VStr "confirmation_state";
                               user_choices := user_choices s0 |})).
  { intros s0 H0. rewrite transition_to_run, H0. reflexivity. }
  assert (Hexit : forall s0, states s0 = STATES ->
            transition_to (VStr "gentle_exit_state") s0 =
            (Returned true, {| states := states s0;
                               current_state := VStr "gentle_exit_state";
                               user_choices := user_choices s0 |})).
  { intros s0 H0. rewrite transition_to_run, H0. reflexivity. }
  rewrite Hrun. clear Hrun run. unfold try_except.
  split; [|split; [|split]].
  - destruct (py_eq_str v "yes"); [|destruct (py_in_strs v ["maybe"; "friends"])];
      unfold bind; rewrite ?Hconf, ?Hexit by exact Hst; reflexivity.
  - intros ->. change (py_eq_str (VStr "yes") "yes") with true. cbv iota.
    unfold bind. rewrite Hconf by exact Hst. split; reflexivity.
  - intros [-> | ->].
    + change (py_eq_str (VStr "maybe") "yes") with false.
      change (py_in_strs (VStr "maybe") ["maybe"; "friends"]) with true.
      cbv iota. unfold bind. rewrite Hexit by exact Hst. split; reflexivity.
    + change (py_eq_str (VStr "friends") "yes") with false.
      change (py_in_strs (VStr "friends") ["maybe"; "friends"]) with true.
      cbv iota. unfold bind. rewrite Hexit by exact Hst. split; reflexivity.
  - intros Nyes Nmaybe Nfriends.
    assert (E1 : py_eq_str v "yes" = false).
    { destruct v; try reflexivity. simpl. apply String.eqb_neq. congruence. }
    assert (E2 : py_in_strs v ["maybe"; "friends"] = false).
    { destruct v; try reflexivity. simpl.
      rewrite orb_false_r. apply orb_false_iff.
      split; apply String.eqb_neq; congruence. }
    rewrite E1, E2. split; reflexivity.
Qed.

Lemma valentine_response_spec_witness :
  current_state
    (snd (App.record_choice demo_env
            (Returned (VDict [("type", VStr "valentine_response");
                              ("value", VStr "yes")])) init))
  = VStr "confirmation_state".
Proof.
  apply (valentine_response_spec demo_env init
           [("type", VStr "valentine_response"); ("value", VStr "yes")]
           (VStr "yes") reach_init eq_refl eq_refl eq_refl).
  reflexivity.
Defined.

(** ** The video view *)

(** Both refusals of [serve_video] are raised with [abort] inside the
    [try] block, and [except Exception] catches what [abort] raises: the
    handler then aborts with 500.  So a path that resolves outside the video
    directory is answered 500, and no file is sent. *)
Lemma serve_video_escape (env : Env) (filename : string) (st : ValentineState) :
  String.prefix (path_resolve env "static/videos")
                (path_resolve env (path_join "static/videos" filename)) = false ->
  App.serve_video env filename st = (Raised (HTTPException 500), st).
Proof.
  intros Hesc. unfold App.serve_video, try_except, lift, py_resolve; cbv zeta.
  cbn [no_fault resolve_fault env_of]. unfold bind at 1. unfold bind at 1.
  unfold bind at 1. rewrite Hesc. reflexivity.
Qed.

(** Likewise a path inside the directory that names no file. *)
Lemma serve_video_absent (env : Env) (filename : string) (st : ValentineState) :
  String.prefix (path_resolve env "static/videos")
                (path_resolve env (path_join "static/videos" filename)) = true ->
  path_exists env (path_join "static/videos" filename) = false ->
  App.serve_video env filename st = (Raised (HTTPException 500), st).
Proof.
  intros Hin Habs.
  unfold App.serve_video, try_except, lift, py_resolve, py_exists; cbv zeta.
  cbn [no_fault resolve_fault exists_fault env_of].
  unfold bind at 1. unfold bind at 1. unfold bind at 1. rewrite Hin. cbn [negb].
  unfold ret at 1. unfold bind at 1. unfold bind at 1. rewrite Habs. reflexivity.
Qed.

(** C7 (the code departs from it): in the demo deployment,
    [GET /static/videos/..] resolves to [/srv/valet/static], outside the
    video directory, and [GET /static/videos/missing.mp4] stays inside it
    and names no file; the view ends both requests with HTTP 500, not with
    403 and 404.  No file contents are returned in either case. *)
Theorem serve_video_refusals_become_500 :
  String.prefix (path_resolve demo_env "static/videos")
                (path_resolve demo_env (path_join "static/videos" "..")) = false
  /\ http_status (fst (App.serve_video demo_env ".." init)) = 500
  /\ String.prefix (path_resolve demo_env "static/videos")
       (path_resolve demo_env (path_join "static/videos" "missing.mp4")) = true
  /\ path_exists demo_env (path_join "static/videos" "missing.mp4") = false
  /\ http_status (fst (App.serve_video demo_env "missing.mp4" init)) = 500.
Proof.
  split; [reflexivity|]. split.
  - now rewrite serve_video_escape.
  - split; [reflexivity|]. split; [reflexivity|].
    now rewrite serve_video_absent.
Qed.

(** * Further properties of the tracker and of the views *)

(** ** How the methods compose *)

(** X1: recording twice under one key keeps the later value only: after
    [record_choice(k, v1); record_choice(k, v2)], with [v2] truthy, the key
    holds [v2], and the whole tracker is the one [record_choice(k, v2)]
    alone would leave, whatever [v1] was and whether or not the first call
    was accepted. *)
Theorem record_choice_last_write_wins
    (st : ValentineState) (k : string) (v1 v2 : PyObj) :
  truthy (py_value v2) = true ->
  user_choices
    (snd (record_choice (VStr k) v2 (snd (record_choice (VStr k) v1 st)))) !! k
  = Some (py_value v2)
  /\ snd (record_choice (VStr k) v2 (snd (record_choice (VStr k) v1 st)))
     = snd (record_choice (VStr k) v2 st).
Proof.
  intros T2. rewrite !record_choice_obj_run. cbn [py_value delivered]. rewrite T2.
  destruct (truthy (py_value v1)); cbn [snd user_choices states current_state].
  - split; [apply lookup_insert_eq|]. now rewrite insert_insert_eq.
  - split; [apply lookup_insert_eq | reflexivity].
Qed.

Lemma record_choice_last_write_wins_witness :
  user_choices
    (snd (record_choice (VStr "valentine_response") (VStr "yes")
            (snd (record_choice (VStr "valentine_response") (VStr "maybe") init))))
    !! "valentine_response"
  = Some (VStr "yes").
Proof.
  apply (record_choice_last_write_wins init "valentine_response"
           (VStr "maybe") (VStr "yes") eq_refl).
Defined.

(** X2: recordings under different choice types do not interfere: made in
    either order they leave the same tracker, whatever the two values
    (and whether or not either call is accepted). *)
Theorem record_choice_commutes
    (st : ValentineState) (ty1 ty2 v1 v2 : PyObj) :
  py_value ty1 <> py_value ty2 ->
  snd (record_choice ty2 v2 (snd (record_choice ty1 v1 st)))
  = snd (record_choice ty1 v1 (snd (record_choice ty2 v2 st))).
Proof.
  intros Hne. rewrite !record_choice_obj_run.
  destruct (py_value ty1) as [| | | |k1| |], (py_value ty2) as [| | | |k2| |];
    try reflexivity;
    try (destruct (truthy (py_value v1)); reflexivity);
    try (destruct (truthy (py_value v2)); reflexivity).
  assert (Hk : k2 <> k1) by congruence.
  destruct (truthy (py_value v1)), (truthy (py_value v2)); simpl; try reflexivity.
  now rewrite (insert_insert_ne _ k2 k1).
Qed.

Lemma record_choice_commutes_witness :
  snd (record_choice (VStr "b") (VInt 2) (snd (record_choice (VStr "a") (VInt 1) init)))
  = snd (record_choice (VStr "a") (VInt 1) (snd (record_choice (VStr "b") (VInt 2) init))).
Proof.
  apply record_choice_commutes. discriminate.
Defined.

(** X3: a transition and a recording are independent: in either order they
    return the same two results and leave the same tracker. *)
Theorem transition_record_commute
    (st : ValentineState) (L : PyVal) (ty v : PyObj) :
  snd (transition_to L (snd (record_choice ty v st)))
  = snd (record_choice ty v (snd (transition_to L st)))
  /\ fst (transition_to L (snd (record_choice ty v st))) = fst (transition_to L st)
  /\ fst (record_choice ty v (snd (transition_to L st))) = fst (record_choice ty v st).
Proof.
  rewrite !record_choice_obj_run, !transition_to_run.
  destruct (py_value ty); try (destruct (truthy (py_value v)));
    try (destruct (isinstance_str L && py_in_strs L (states st)); simpl;
         split; [reflexivity | split; reflexivity]);
    simpl;
    destruct (isinstance_str L && py_in_strs L (states st)); simpl;
      (split; [reflexivity | split; reflexivity]).
Qed.

(** X21: the recording is made before its log line is formed.  For a
    string [type] and a truthy [value], when turning either into text
    raises (under CPython 3.11, an [int] value of more than 4300 digits),
    the value is already stored under the key and the call returns
    false. *)
Theorem record_choice_stores_before_logging
    (st : ValentineState) (ty v : PyObj) (key : string) :
  py_value ty = VStr key ->
  truthy (py_value v) = true ->
  str_raises ty = true \/ str_raises v = true ->
  record_choice ty v st =
    (Returned false,
     {| states := states st; current_state := current_state st;
        user_choices := <[key := py_value v]> (user_choices st) |}).
Proof.
  intros Hkey Tv Hraise. rewrite record_choice_obj_run, Hkey, Tv.
  assert (Hor : str_raises ty || str_raises v = true).
  { apply orb_true_iff. exact Hraise. }
  now rewrite Hor.
Qed.

Lemma record_choice_stores_before_logging_witness :
  str_raises (python311 (VInt (10 ^ 4300))) = true
  /\ fst (record_choice (python311 (VStr "k")) (python311 (VInt (10 ^ 4300))) init)
     = Returned false
  /\ user_choices
       (snd (record_choice (python311 (VStr "k")) (python311 (VInt (10 ^ 4300)))
               init)) !! "k"
     = Some (VInt (10 ^ 4300)).
Proof.
  assert (Hbig : str_raises (python311 (VInt (10 ^ 4300))) = true)
    by (vm_compute; reflexivity).
  assert (Htruthy : truthy (VInt (10 ^ 4300)) = true)
    by (vm_compute; reflexivity).
  split; [exact Hbig|].
  rewrite (record_choice_stores_before_logging init
             (python311 (VStr "k")) (python311 (VInt (10 ^ 4300))) "k"
             eq_refl Htruthy (or_intror Hbig)).
  split; [reflexivity | apply lookup_insert_eq].
Defined.

(** ** Evaluation of the views *)

Lemma transition_to_returns v st : exists b, fst (transition_to v st) = Returned b.
Proof.
  rewrite transition_to_run.
  destruct (isinstance_str v && py_in_strs v (states st)); eexists; reflexivity.
Qed.

(** The choice view, case by case. *)
Lemma choice_view_run env get_json st :
  App.record_choice env get_json st =
  match get_json with
  | Raised e =>
      (Returned (mkResponse 500
                   (Json [("error", VStr (str_exn env e)); ("success", VBool false)])),
       st)
  | Returned data =>
      if negb (truthy data)
      then (Returned (mkResponse 400
                        (Json [("error", VStr "No data provided");
                               ("success", VBool false)])), st)
      else
        match py_get data "type", py_get data "value" with
        | Raised e, _ | Returned _, Raised e =>
            (Returned (mkResponse 500
                         (Json [("error", VStr (str_exn env e));
                                ("success", VBool false)])), st)
        | Returned ty, Returned v =>
            if negb (truthy ty) || negb (truthy v)
            then (Returned (mkResponse 400
                              (Json [("error", VStr "Missing choice data");
                                     ("success", VBool false)])), st)
            else
              match ty with
              | VStr key =>
                  let st1 :=
                    {| states := states st; current_state := current_state st;
                       user_choices := <[key := v]> (user_choices st) |} in
                  if String.eqb key "valentine_response" && py_eq_str v "yes"
                  then (Returned (mkResponse 200
                                    (Json [("success", VBool true);
                                           ("choice_recorded", VBool true);
                                           ("next_state", VStr "confirmation_state");
                                           ("message", VStr "Love is in the air! 💕")])),
                        snd (transition_to (VStr "confirmation_state") st1))
                  else if String.eqb key "valentine_response"
                          && py_in_strs v ["maybe"; "friends"]
                  then (Returned (mkResponse 200
                                    (Json [("success", VBool true);
                                           ("choice_recorded", VBool true);
                                           ("next_state", VStr "gentle_exit_state");
                                           ("message", VStr "Your feelings are valid ❤️")])),
                        snd (transition_to (VStr "gentle_exit_state") st1))
                  else (Returned (mkResponse 200
                                    (Json [("success", VBool true);
                                           ("choice_recorded", VBool true)])), st1)
              | _ =>
                  (Returned (mkResponse 500
                               (Json [("error", VStr "Failed to record choice");
                                      ("success", VBool false)])), st)
              end
        end
  end.
Proof.
  unfold App.record_choice, try_except, lift.
  destruct get_json as [data|e]; [|reflexivity].
  unfold bind at 1. destruct (truthy data) eqn:Td; [|reflexivity].
  cbn [negb]. unfold bind at 1.
  destruct (py_get data "type") as [ty|e]; [|reflexivity].
  unfold bind at 1.
  destruct (py_get data "value") as [v|e]; [|reflexivity].
  destruct (truthy ty) eqn:Tty; [|reflexivity].
  destruct (truthy v) eqn:Tv; [|reflexivity].
  cbn [negb orb]. unfold bind at 1. rewrite record_choice_run.
  destruct ty as [| | | |key| |]; try reflexivity.
  rewrite Tv. cbn [negb py_eq_str].
  destruct (String.eqb key "valentine_response"); cbn [andb]; [|reflexivity].
  destruct (py_eq_str v "yes").
  - unfold bind.
    destruct (transition_to_returns (VStr "confirmation_state")
                {| states := states st; current_state := current_state st;
                   user_choices := <[key := v]> (user_choices st) |}) as [b Hb].
    destruct (transition_to _ _) as [o s1]. simpl in Hb. subst o. reflexivity.
  - destruct (py_in_strs v ["maybe"; "friends"]); [|reflexivity].
    unfold bind.
    destruct (transition_to_returns (VStr "gentle_exit_state")
                {| states := states st; current_state := current_state st;
                   user_choices := <[key := v]> (user_choices st) |}) as [b Hb].
    destruct (transition_to _ _) as [o s1]. simpl in Hb. subst o. reflexivity.
Qed.

Lemma py_exists_no_fault (env : Env) p :
  py_exists env p = Returned (path_exists env p).
Proof. reflexivity. Qed.

Lemma py_resolve_no_fault (env : Env) p :
  py_resolve env p = Returned (path_resolve env p).
Proof. reflexivity. Qed.

(** [GET /] in any environment: the state is reset first; either check
    raising, like the renderer raising, ends in the 500 of the [except]
    clause. *)
Lemma index_eval (world : World) st :
  App.index world st =
  let st1 := snd (transition_to (VStr "loading") st) in
  let failed e :=
    (Returned (mkResponse 500
                 (Html ("Error loading page, but love persists! ❤️<br>Error: "
                        ++ str_exn (env_of world) e))), st1) in
  match py_exists world "static/videos/valentine-video.mp4" with
  | Raised e => failed e
  | Returned video_exists =>
      match py_exists world "templates/index.html" with
      | Raised e => failed e
      | Returned template_exists =>
          if negb template_exists
          then (Returned (mkResponse 500
                            (Html "Template error - but love finds a way! ❤️")),
                st1)
          else
            match render_template (env_of world) "index.html"
                    [("video_exists", VBool video_exists)]
            with
            | Returned page => (Returned (mkResponse 200 page), st1)
            | Raised e => failed e
            end
      end
  end.
Proof.
  unfold App.index, try_except, lift; cbv zeta. unfold bind at 1.
  destruct (transition_to_returns (VStr "loading") st) as [b Hb].
  destruct (transition_to (VStr "loading") st) as [o st1].
  simpl in Hb. subst o. cbn [snd]. unfold bind at 1.
  destruct (py_exists world "static/videos/valentine-video.mp4"); [|reflexivity].
  unfold bind at 1.
  destruct (py_exists world "templates/index.html") as [t|e]; [|reflexivity].
  destruct t; [|reflexivity].
  cbn [negb]. unfold bind.
  destruct (render_template (env_of world) "index.html" _); reflexivity.
Qed.

Lemma index_run (env : Env) st :
  App.index env st =
  let st1 := snd (transition_to (VStr "loading") st) in
  if negb (path_exists env "templates/index.html")
  then (Returned (mkResponse 500 (Html "Template error - but love finds a way! ❤️")),
        st1)
  else
    match render_template env "index.html"
            [("video_exists",
              VBool (path_exists env "static/videos/valentine-video.mp4"))]
    with
    | Returned page => (Returned (mkResponse 200 page), st1)
    | Raised e =>
        (Returned (mkResponse 500
                     (Html ("Error loading page, but love persists! ❤️<br>Error: "
                            ++ str_exn env e))), st1)
    end.
Proof.
  rewrite index_eval, !py_exists_no_fault; cbv zeta. reflexivity.
Qed.

Lemma transition_state_run env state_name st :
  App.transition_state env state_name st =
  if py_in_strs (VStr state_name) (states st)
  then (Returned (mkResponse 200
                    (Json [("success", VBool true);
                           ("current_state", VStr state_name);
                           ("message", VStr ("Transitioned to " ++ state_name))])),
        {| states := states st; current_state := VStr state_name;
           user_choices := user_choices st |})
  else (Returned (mkResponse 400
                    (Json [("error", VStr "Invalid state"); ("success", VBool false)])),
        st).
Proof.
  unfold App.transition_state, try_except. unfold bind at 1.
  rewrite validate_state_run. cbn [isinstance_str andb].
  destruct (py_in_strs (VStr state_name) (states st)) eqn:Hin; [|reflexivity].
  cbn [negb]. unfold bind at 1. rewrite transition_to_run.
  cbn [isinstance_str andb]. rewrite Hin. reflexivity.
Qed.

(** [GET /api/health] in any environment: the three checks are made in
    order, and the first that raises ends the request in the 500
    ["unhealthy"] answer of the [except] clause. *)
Lemma health_check_eval (world : World) st :
  App.health_check world st =
  let unhealthy e :=
    (Returned (mkResponse 500
                 (Json [("status", VStr "unhealthy");
                        ("error", VStr (str_exn (env_of world) e))])), st) in
  match py_exists world "templates/index.html" with
  | Raised e => unhealthy e
  | Returned template_exists =>
      match py_exists world "static" with
      | Raised e => unhealthy e
      | Returned static_dir_exists =>
          match py_exists world "static/videos/valentine-video.mp4" with
          | Raised e => unhealthy e
          | Returned video_exists =>
              let state_valid :=
                isinstance_str (current_state st)
                && py_in_strs (current_state st) (states st) in
              (Returned
                 (mkResponse 200
                    (Json [("status",
                            VStr (if py_all [template_exists; static_dir_exists;
                                             state_valid]
                                  then "healthy" else "degraded"));
                           ("checks",
                            VDict [("template_exists", VBool template_exists);
                                   ("static_dir_exists", VBool static_dir_exists);
                                   ("video_exists", VBool video_exists);
                                   ("current_state", current_state st);
                                   ("state_valid", VBool state_valid)]);
                           ("message", VStr "Love is always healthy! ❤️")])),
               st)
          end
      end
  end.
Proof.
  unfold App.health_check, try_except, lift; cbv zeta. unfold bind at 1.
  destruct (py_exists world "templates/index.html"); [|reflexivity].
  unfold bind at 1.
  destruct (py_exists world "static"); [|reflexivity].
  unfold bind at 1.
  destruct (py_exists world "static/videos/valentine-video.mp4"); [|reflexivity].
  unfold bind, get_current_state. rewrite validate_state_run. reflexivity.
Qed.

Lemma health_check_returns (world : World) st :
  exists r, App.health_check world st = (Returned r, st).
Proof.
  rewrite health_check_eval; cbv zeta.
  destruct (py_exists world "templates/index.html"); [|eexists; reflexivity].
  destruct (py_exists world "static"); [|eexists; reflexivity].
  destruct (py_exists world "static/videos/valentine-video.mp4");
    eexists; reflexivity.
Qed.

Lemma health_check_run (env : Env) st :
  exists r, App.health_check env st = (Returned r, st) /\ status r = 200.
Proof.
  rewrite health_check_eval, !py_exists_no_fault; cbv zeta.
  eexists. split; reflexivity.
Qed.

(** [GET /static/videos/<filename>] in any environment: a response only
    comes from [send_from_directory]; everything else ends in
    [abort(500)]. *)
Lemma serve_video_eval (world : World) filename st :
  App.serve_video world filename st =
  (match py_resolve world (path_join "static/videos" filename) with
   | Raised _ => Raised (HTTPException 500)
   | Returned resolved_path =>
       match py_resolve world "static/videos" with
       | Raised _ => Raised (HTTPException 500)
       | Returned resolved_dir =>
           if negb (String.prefix resolved_dir resolved_path)
           then Raised (HTTPException 500)
           else
             match py_exists world (path_join "static/videos" filename) with
             | Raised _ => Raised (HTTPException 500)
             | Returned present =>
                 if negb present then Raised (HTTPException 500)
                 else
                   match send_from_directory (env_of world) "static/videos"
                           filename (video_mimetype (env_of world) filename)
                   with
                   | Returned r => Returned r
                   | Raised _ => Raised (HTTPException 500)
                   end
             end
       end
   end, st).
Proof.
  unfold App.serve_video, try_except, lift, video_mimetype; cbv zeta.
  unfold bind at 1.
  destruct (py_resolve world (path_join "static/videos" filename));
    [|reflexivity].
  unfold bind at 1.
  destruct (py_resolve world "static/videos"); [|reflexivity].
  unfold bind at 1.
  destruct (String.prefix _ _); [|reflexivity].
  cbn [negb]. unfold ret at 1. unfold bind at 1.
  destruct (py_exists world _) as [present|e]; [|reflexivity].
  unfold bind at 1. destruct present; [|reflexivity].
  cbn [negb]. unfold ret at 1.
  destruct (send_from_directory _ "static/videos" filename _); reflexivity.
Qed.

Lemma serve_video_run (env : Env) filename st :
  App.serve_video env filename st =
  (if String.prefix (path_resolve env "static/videos")
                    (path_resolve env (path_join "static/videos" filename))
      && path_exists env (path_join "static/videos" filename)
   then match send_from_directory env "static/videos" filename
                (video_mimetype env filename) with
        | Returned r => Returned r
        | Raised _ => Raised (HTTPException 500)
        end
   else Raised (HTTPException 500),
   st).
Proof.
  rewrite serve_video_eval, !py_resolve_no_fault, py_exists_no_fault.
  change (env_of (no_fault env)) with env.
  destruct (String.prefix _ _); [|reflexivity].
  cbn [negb andb]. destruct (path_exists env _); reflexivity.
Qed.

(** ** The views, one by one *)

(** X4: [GET /] always returns (with 200 or 500) and, on the running
    tracker, always leaves [current_state] at ["loading"] while keeping the
    label list and every recorded choice: the "reset for a new session"
    resets the state only, and it does so even when the answer is 500. *)
Theorem index_resets_state_only (env : World) (st : ValentineState) :
  reachable st ->
  exists r,
    App.index env st =
      (Returned r,
       {| states := states st; current_state := VStr "loading";
          user_choices := user_choices st |})
    /\ (status r = 200 \/ status r = 500).
Proof.
  intros Hreach. destruct (reachable_tracker_inv st Hreach) as [Hst _].
  rewrite index_eval; cbv zeta. rewrite transition_to_run, Hst.
  change (isinstance_str (VStr "loading") && py_in_strs (VStr "loading") STATES)
    with true. cbv iota. cbn [snd].
  destruct (py_exists env "static/videos/valentine-video.mp4");
    [|eexists; split; [reflexivity | right; reflexivity]].
  destruct (py_exists env "templates/index.html") as [t|e];
    [|eexists; split; [reflexivity | right; reflexivity]].
  destruct t; cbn [negb].
  - destruct (render_template (env_of env) "index.html" _); eexists;
      (split; [reflexivity|]); [left | right]; reflexivity.
  - eexists. split; [reflexivity|]. right. reflexivity.
Qed.

Lemma index_resets_state_only_witness :
  exists r,
    App.index demo_env
      (snd (App.record_choice demo_env
              (Returned (VDict [("type", VStr "valentine_response");
                                ("value", VStr "yes")])) init))
    = (Returned r,
       {| states := STATES; current_state := VStr "loading";
          user_choices := {["valentine_response" := VStr "yes"]} |}).
Proof.
  destruct (index_resets_state_only demo_env
              (snd (handle_request demo_env
                      (PostChoice
                         (Returned (VDict [("type", VStr "valentine_response");
                                           ("value", VStr "yes")]))) init))
              (reach_request _ _ _ reach_init)) as (r & Hr & _).
  exists r. exact Hr.
Defined.

(** X5: what [GET /] answers.  The video file is looked for first, then
    the template.  If either look-up raises, the answer is 500 with the
    "Error loading page" text and the error.  Otherwise: without
    [templates/index.html] it is the fixed fallback text with 500, whatever
    the renderer would do; with it, the rendered page with 200, the page
    being told whether the video file exists (a missing video is no error);
    and if the renderer raises, 500 with the "Error loading page" text. *)
Theorem index_response (world : World) (st : ValentineState) :
  (forall e,
      py_exists world "static/videos/valentine-video.mp4" = Raised e
      \/ (exists video_exists,
            py_exists world "static/videos/valentine-video.mp4"
              = Returned video_exists
            /\ py_exists world "templates/index.html" = Raised e) ->
      fst (App.index world st) =
        Returned (mkResponse 500
                    (Html ("Error loading page, but love persists! ❤️<br>Error: "
                           ++ str_exn (env_of world) e))))
  /\ (forall video_exists,
        py_exists world "static/videos/valentine-video.mp4"
          = Returned video_exists ->
        py_exists world "templates/index.html" = Returned false ->
        fst (App.index world st) =
          Returned (mkResponse 500
                      (Html "Template error - but love finds a way! ❤️")))
  /\ (forall video_exists page,
        py_exists world "static/videos/valentine-video.mp4"
          = Returned video_exists ->
        py_exists world "templates/index.html" = Returned true ->
        render_template (env_of world) "index.html"
          [("video_exists", VBool video_exists)] = Returned page ->
        fst (App.index world st) = Returned (mkResponse 200 page))
  /\ (forall video_exists e,
        py_exists world "static/videos/valentine-video.mp4"
          = Returned video_exists ->
        py_exists world "templates/index.html" = Returned true ->
        render_template (env_of world) "index.html"
          [("video_exists", VBool video_exists)] = Raised e ->
        fst (App.index world st) =
          Returned (mkResponse 500
                      (Html ("Error loading page, but love persists! ❤️<br>Error: "
                             ++ str_exn (env_of world) e)))).
Proof.
  rewrite index_eval; cbv zeta. split; [|split; [|split]].
  - intros e [-> | (video_exists & -> & ->)]; reflexivity.
  - intros video_exists -> ->. reflexivity.
  - intros video_exists page -> -> ->. reflexivity.
  - intros video_exists e -> -> ->. reflexivity.
Qed.

Lemma index_response_witness :
  fst (App.index (with_video demo_env) init) =
    Returned (mkResponse 200 (Page "index.html" [("video_exists", VBool true)]))
  /\ fst (App.index locked_templates init) =
       Returned (mkResponse 500
                   (Html ("Error loading page, but love persists! ❤️<br>Error: "
                          ++ "[Errno 13] Permission denied: 'templates/index.html'"))).
Proof.
  split.
  - apply (proj1 (proj2 (proj2 (index_response (with_video demo_env) init)))
             true (Page "index.html" [("video_exists", VBool true)]));
      reflexivity.
  - apply (proj1 (index_response locked_templates init)
             (LibraryError "PermissionError"
                "[Errno 13] Permission denied: 'templates/index.html'")).
    right. exists false. split; reflexivity.
Defined.

(** X6: the contract of [POST /api/state/<name>] on the running tracker.
    For one of the ten labels it answers 200, reports that label as the
    current state and leaves the tracker in it, choices untouched; for any
    other name it answers 400 "Invalid state" and changes nothing. *)
Theorem transition_state_contract
    (env : Env) (st : ValentineState) (state_name : string) :
  reachable st ->
  (In state_name STATES ->
   App.transition_state env state_name st =
     (Returned (mkResponse 200
                  (Json [("success", VBool true);
                         ("current_state", VStr state_name);
                         ("message", VStr ("Transitioned to " ++ state_name))])),
      {| states := states st; current_state := VStr state_name;
         user_choices := user_choices st |}))
  /\ (~ In state_name STATES ->
      App.transition_state env state_name st =
        (Returned (mkResponse 400
                     (Json [("error", VStr "Invalid state");
                            ("success", VBool false)])), st)).
Proof.
  intros Hreach. destruct (reachable_tracker_inv st Hreach) as [Hst _].
  rewrite transition_state_run, Hst. split; intros H.
  - now rewrite (proj2 (py_in_strs_In state_name STATES) H).
  - destruct (py_in_strs (VStr state_name) STATES) eqn:E; [|reflexivity].
    apply py_in_strs_In in E. contradiction.
Qed.

Lemma transition_state_contract_witness :
  http_status (fst (App.transition_state demo_env "valentine_question" init)) = 200
  /\ App.transition_state demo_env "" init =
       (Returned (mkResponse 400
                    (Json [("error", VStr "Invalid state");
                           ("success", VBool false)])), init).
Proof.
  destruct (transition_state_contract demo_env init "valentine_question" reach_init)
    as [Hok _].
  destruct (transition_state_contract demo_env init "" reach_init) as [_ Hbad].
  split.
  - rewrite Hok; [reflexivity|]. simpl. tauto.
  - apply Hbad. simpl. intros H. decompose [or] H; try discriminate; assumption.
Defined.

(** X7: the two rejections of [POST /api/choice].  A body that parses to a
    falsy value ([None], an empty object, [0], an empty string or list) is
    answered 400 "No data provided"; an object in which [type] or [value] is
    missing or falsy is answered 400 "Missing choice data".  Neither changes
    the tracker. *)
Theorem choice_view_rejections
    (env : Env) (st : ValentineState) :
  (forall data,
      truthy data = false ->
      App.record_choice env (Returned data) st =
        (Returned (mkResponse 400
                     (Json [("error", VStr "No data provided");
                            ("success", VBool false)])), st))
  /\ (forall entries,
        entries <> [] ->
        (match dict_lookup "type" entries with
         | Some ty => truthy ty = false | None => True end
         \/ match dict_lookup "value" entries with
            | Some v => truthy v = false | None => True end) ->
        App.record_choice env (Returned (VDict entries)) st =
          (Returned (mkResponse 400
                       (Json [("error", VStr "Missing choice data");
                              ("success", VBool false)])), st)).
Proof.
  split.
  - intros data Hd. now rewrite choice_view_run, Hd.
  - intros entries Hne Hmiss. rewrite choice_view_run.
    assert (Hd : truthy (VDict entries) = true)
      by (destruct entries; [contradiction | reflexivity]).
    rewrite Hd. cbn [negb py_get].
    set (ty := match dict_lookup "type" entries with Some v => v | None => VNone end).
    set (v := match dict_lookup "value" entries with Some v => v | None => VNone end).
    assert (Hfalsy : negb (truthy ty) || negb (truthy v) = true).
    { subst ty v. destruct Hmiss as [H|H].
      - destruct (dict_lookup "type" entries); [rewrite H|]; reflexivity.
      - destruct (dict_lookup "value" entries); [rewrite H|];
          simpl; apply orb_true_r. }
    now rewrite Hfalsy.
Qed.

Lemma choice_view_rejections_witness :
  http_status (fst (App.record_choice demo_env (Returned (VDict [])) init)) = 400
  /\ http_status
       (fst (App.record_choice demo_env
               (Returned (VDict [("type", VStr "valentine_response")])) init)) = 400
  /\ http_status
       (fst (App.record_choice demo_env
               (Returned (VDict [("type", VStr "mood"); ("value", VInt 0)])) init))
     = 400.
Proof.
  destruct (choice_view_rejections demo_env init) as [Hnone Hmiss].
  split; [|split].
  - rewrite Hnone; reflexivity.
  - rewrite Hmiss; [reflexivity | discriminate | right; exact Logic.I].
  - rewrite Hmiss; [reflexivity | discriminate | right; reflexivity].
Defined.

(** X8: a body the view cannot read is answered 500 with the text of the
    exception, the tracker unchanged: when [get_json] itself raises, and
    when it yields a truthy value that is not an object (a list, a string,
    a number, [true]), on which [data.get] raises [AttributeError]. *)
Theorem choice_view_unreadable_body
    (env : Env) (st : ValentineState) :
  (forall e,
      App.record_choice env (Raised e) st =
        (Returned (mkResponse 500
                     (Json [("error", VStr (str_exn env e));
                            ("success", VBool false)])), st))
  /\ (forall data,
        truthy data = true ->
        type_name data <> "dict" ->
        App.record_choice env (Returned data) st =
          (Returned (mkResponse 500
                       (Json [("error",
                               VStr (str_exn env
                                       (AttributeError
                                          ("'" ++ type_name data
                                           ++ "' object has no attribute 'get'"))));
                              ("success", VBool false)])), st)).
Proof.
  split.
  - intros e. now rewrite choice_view_run.
  - intros data Hd Hty. rewrite choice_view_run, Hd. cbn [negb].
    destruct data; try reflexivity. now contradiction Hty.
Qed.

Lemma choice_view_unreadable_body_witness :
  App.record_choice demo_env (Returned (VList [VStr "yes"])) init =
    (Returned (mkResponse 500
                 (Json [("error", VStr "'list' object has no attribute 'get'");
                        ("success", VBool false)])), init).
Proof.
  apply (proj2 (choice_view_unreadable_body demo_env init) (VList [VStr "yes"]));
    [reflexivity | discriminate].
Defined.

(** X9: a choice of any other type is recorded and nothing more.  For a
    non-empty string [type] other than ["valentine_response"] and a truthy
    [value] the view answers 200 with the bare acknowledgement, stores the
    value under that type and leaves [current_state] alone, even when the
    value is ["yes"], ["maybe"] or ["friends"]. *)
Theorem choice_view_other_types
    (env : Env) (st : ValentineState)
    (entries : list (string * PyVal)) (key : string) (v : PyVal) :
  dict_lookup "type" entries = Some (VStr key) ->
  dict_lookup "value" entries = Some v ->
  key <> "" -> key <> "valentine_response" -> truthy v = true ->
  App.record_choice env (Returned (VDict entries)) st =
    (Returned (mkResponse 200
                 (Json [("success", VBool true); ("choice_recorded", VBool true)])),
     {| states := states st; current_state := current_state st;
        user_choices := <[key := v]> (user_choices st) |}).
Proof.
  intros Hty Hv Hkey Hother Tv. rewrite choice_view_run.
  assert (Hd : truthy (VDict entries) = true)
    by (destruct entries; [discriminate Hty | reflexivity]).
  rewrite Hd. cbn [negb py_get]. rewrite Hty, Hv, Tv.
  assert (Tk : truthy (VStr key) = true).
  { simpl. apply negb_true_iff, String.eqb_neq. exact Hkey. }
  rewrite Tk. cbn [negb orb].
  apply String.eqb_neq in Hother. now rewrite Hother.
Qed.

Lemma choice_view_other_types_witness :
  current_state
    (snd (App.record_choice demo_env
            (Returned (VDict [("type", VStr "mood"); ("value", VStr "yes")])) init))
  = VStr "loading".
Proof.
  rewrite (choice_view_other_types demo_env init
             [("type", VStr "mood"); ("value", VStr "yes")] "mood" (VStr "yes")
             eq_refl eq_refl).
  - reflexivity.
  - discriminate.
  - discriminate.
  - reflexivity.
Defined.

(** ** What a request can do to the tracker *)

Lemma transition_to_effect v st :
  states (snd (transition_to v st)) = states st
  /\ user_choices (snd (transition_to v st)) = user_choices st.
Proof.
  rewrite transition_to_run.
  destruct (isinstance_str v && py_in_strs v (states st)); split; reflexivity.
Qed.

(** The choice view either refuses and changes nothing, or answers 200
    having stored one truthy value under one non-empty key. *)
Lemma choice_view_effect env get_json st :
  exists r st',
    App.record_choice env get_json st = (Returned r, st')
    /\ (((status r = 400 \/ status r = 500) /\ st' = st)
        \/ (status r = 200
            /\ states st' = states st
            /\ exists key v,
                 key <> "" /\ truthy v = true
                 /\ user_choices st' = <[key := v]> (user_choices st))).
Proof.
  rewrite choice_view_run.
  destruct get_json as [data|e];
    [|eexists _, _; split; [reflexivity | left; split; [right|]; reflexivity]].
  destruct (truthy data); cbn [negb];
    [|eexists _, _; split; [reflexivity | left; split; [left|]; reflexivity]].
  destruct (py_get data "type") as [ty|e], (py_get data "value") as [v|e'];
    try (eexists _, _; split; [reflexivity | left; split; [right|]; reflexivity]).
  destruct (truthy ty) eqn:Tty, (truthy v) eqn:Tv; cbn [negb orb];
    try (eexists _, _; split; [reflexivity | left; split; [left|]; reflexivity]).
  destruct ty as [| | | |key| |];
    try (eexists _, _; split; [reflexivity | left; split; [right|]; reflexivity]).
  assert (Hkey : key <> "").
  { simpl in Tty. apply negb_true_iff, String.eqb_neq in Tty. exact Tty. }
  cbv zeta.
  set (st1 := {| states := states st; current_state := current_state st;
                 user_choices := <[key := v]> (user_choices st) |}).
  destruct (String.eqb key "valentine_response" && py_eq_str v "yes");
    [|destruct (String.eqb key "valentine_response"
                && py_in_strs v ["maybe"; "friends"])];
    eexists _, _; (split; [reflexivity|]); right;
    (split; [reflexivity|]); cbn [snd];
    try (destruct (transition_to_effect (VStr "confirmation_state") st1) as [E1 E2];
         rewrite E1, E2);
    try (destruct (transition_to_effect (VStr "gentle_exit_state") st1) as [E1 E2];
         rewrite E1, E2);
    (split; [reflexivity|]); exists key, v; repeat split; assumption.
Qed.

Lemma request_effect (env : World) r st :
  states (snd (handle_request env r st)) = states st
  /\ (user_choices (snd (handle_request env r st)) = user_choices st
      \/ exists key v,
           key <> "" /\ truthy v = true
           /\ user_choices (snd (handle_request env r st))
              = <[key := v]> (user_choices st)).
Proof.
  destruct r as [|state_name|get_json| |filename]; cbn [handle_request].
  - rewrite index_eval; cbv zeta.
    destruct (transition_to_effect (VStr "loading") st) as [E1 E2].
    destruct (py_exists env "static/videos/valentine-video.mp4");
      [destruct (py_exists env "templates/index.html") as [t|e];
       [destruct (negb t); [|destruct (render_template _ _ _)]|]|];
      cbn [snd]; (split; [exact E1 | left; exact E2]).
  - rewrite transition_state_run.
    destruct (py_in_strs _ _); split; (reflexivity || (left; reflexivity)).
  - destruct (choice_view_effect (env_of env) get_json st)
      as (r & st' & Hrun & [[_ ->] | (_ & Hst & key & v & Hk & Tv & Hc)]);
      rewrite Hrun; cbn [snd].
    + split; [reflexivity | left; reflexivity].
    + split; [exact Hst | right; exists key, v; auto].
  - destruct (health_check_returns env st) as (r & Hrun). rewrite Hrun.
    split; [reflexivity | left; reflexivity].
  - rewrite serve_video_eval. split; [reflexivity | left; reflexivity].
Qed.

Lemma record_choice_effect (ty v : PyObj) st :
  states (snd (record_choice ty v st)) = states st
  /\ (user_choices (snd (record_choice ty v st)) = user_choices st
      \/ exists key,
           truthy (py_value v) = true
           /\ user_choices (snd (record_choice ty v st))
              = <[key := py_value v]> (user_choices st)).
Proof.
  rewrite record_choice_obj_run.
  destruct (py_value ty) as [| | | |key| |];
    try (split; [reflexivity | left; reflexivity]).
  destruct (truthy (py_value v)) eqn:Tv; split; try reflexivity.
  - right. exists key. split; reflexivity.
  - left. reflexivity.
Qed.

Lemma step_effect st st' :
  step st st' ->
  states st' = states st
  /\ (user_choices st' = user_choices st
      \/ exists key v,
           truthy v = true /\ user_choices st' = <[key := v]> (user_choices st)).
Proof.
  intros [(env & r & ->) | [(v & ->) | [(v & ->) | (ty & v & ->)]]].
  - destruct (request_effect env r st) as [Hs [Hc | (key & v & _ & Tv & Hc)]].
    + split; [exact Hs | left; exact Hc].
    + split; [exact Hs | right; exists key, v; auto].
  - rewrite validate_state_run. split; [reflexivity | left; reflexivity].
  - destruct (transition_to_effect v st) as [Hs Hc].
    split; [exact Hs | left; exact Hc].
  - destruct (record_choice_effect ty v st) as [Hs [Hc | (key & Tv & Hc)]].
    + split; [exact Hs | left; exact Hc].
    + split; [exact Hs | right; exists key, (py_value v); auto].
Qed.

(** ** Whole runs *)

(** X10: through any sequence of requests and method calls the label list
    stays what it was, and no recorded choice is ever removed: a key that
    holds a value keeps holding one (nothing deletes from the mapping; a
    value can only be overwritten). *)
Theorem run_keeps_labels_and_keys (st st' : ValentineState) :
  rtc step st st' ->
  states st' = states st
  /\ (forall k, is_Some (user_choices st !! k) -> is_Some (user_choices st' !! k)).
Proof.
  induction 1 as [st | st mid st' Hstep _ [IHs IHc]].
  - split; [reflexivity | auto].
  - destruct (step_effect st mid Hstep) as [Hs Hc]. split.
    + now rewrite IHs.
    + intros k Hk. apply IHc.
      destruct Hc as [-> | (key & v & _ & ->)]; [exact Hk|].
      rewrite lookup_insert_is_Some.
      destruct (decide (key = k)); [left; assumption | right; split; assumption].
Qed.

Lemma run_keeps_labels_and_keys_witness :
  is_Some
    (user_choices
       (snd (handle_request demo_env GetIndex
               (snd (record_choice (VStr "mood") (VStr "fine") init))))
     !! "mood").
Proof.
  apply (proj2 (run_keeps_labels_and_keys
                  (snd (record_choice (VStr "mood") (VStr "fine") init))
                  (snd (handle_request demo_env GetIndex
                          (snd (record_choice (VStr "mood") (VStr "fine") init))))
                  (rtc_once _ _ (or_introl (ex_intro _ (no_fault demo_env)
                                              (ex_intro _ GetIndex eq_refl)))))).
  exists (VStr "fine"). vm_compute. reflexivity.
Defined.

(** X11: every value the tracker holds is truthy: in any reachable state,
    whatever is stored in the choices mapping passed the [not choice_value]
    test, so no [None], [false], [0], empty string, list or object is ever
    stored. *)
Theorem stored_choices_truthy (st : ValentineState) (k : string) (v : PyVal) :
  reachable st ->
  user_choices st !! k = Some v ->
  truthy v = true.
Proof.
  intros Hreach. revert k v.
  assert (Hstep : forall s s', step s s' ->
            (forall k v, user_choices s !! k = Some v -> truthy v = true) ->
            forall k v, user_choices s' !! k = Some v -> truthy v = true).
  { intros s s' Hs IH k v. destruct (step_effect s s' Hs) as [_ [-> | (key & w & Tw & ->)]].
    - apply IH.
    - rewrite lookup_insert_Some. intros [[_ <-] | [_ Hold]]; [exact Tw|].
      now apply (IH k). }
  induction Hreach as [|env r st _ IH|w st _ IH|w st _ IH|ty w st _ IH].
  - intros k v H. unfold init in H; cbn [user_choices] in H.
    rewrite lookup_empty in H. discriminate H.
  - apply (Hstep st); [|exact IH]. left. eauto.
  - apply (Hstep st); [|exact IH]. right. left. eauto.
  - apply (Hstep st); [|exact IH]. right. right. left. eauto.
  - apply (Hstep st); [|exact IH]. right. right. right. eauto.
Qed.

Lemma stored_choices_truthy_witness :
  truthy (VList [VInt 0]) = true.
Proof.
  apply (stored_choices_truthy
           (snd (record_choice (VStr "mood") (VList [VInt 0]) init))
           "mood" (VList [VInt 0])).
  - apply reach_record, reach_init.
  - vm_compute. reflexivity.
Defined.

(** X12: through the HTTP routes only, every key of the choices mapping is
    a non-empty string and every value truthy: the view's presence test
    keeps out the empty type that the method by itself would accept. *)
Theorem served_choices_wellformed (st : ValentineState) (k : string) (v : PyVal) :
  served st ->
  user_choices st !! k = Some v ->
  k <> "" /\ truthy v = true.
Proof.
  intros Hserved. revert k v.
  induction Hserved as [|env r st _ IH].
  - intros k v H. unfold init in H; cbn [user_choices] in H.
    rewrite lookup_empty in H. discriminate H.
  - intros k v.
    destruct (request_effect env r st) as [_ [-> | (key & w & Hk & Tw & ->)]].
    + apply IH.
    + rewrite lookup_insert_Some. intros [[<- <-] | [_ Hold]]; [split; assumption|].
      now apply IH.
Qed.

Lemma served_choices_wellformed_witness :
  "valentine_response" <> "" /\ truthy (VStr "friends") = true.
Proof.
  apply (served_choices_wellformed
           (snd (handle_request demo_env
                   (PostChoice (Returned (VDict [("type", VStr "valentine_response");
                                                 ("value", VStr "friends")]))) init))
           "valentine_response" (VStr "friends")).
  - apply served_request, served_init.
  - vm_compute. reflexivity.
Defined.

(** X13: the choice view never raises and answers 200, 400 or 500; any
    answer other than 200 leaves the tracker exactly as it was, and a 200
    means that one truthy value was stored under one non-empty key, the
    label list untouched. *)
Theorem choice_view_outcomes
    (env : Env) (get_json : outcome PyVal) (st : ValentineState) :
  exists r st',
    App.record_choice env get_json st = (Returned r, st')
    /\ (status r = 200 \/ status r = 400 \/ status r = 500)
    /\ (status r <> 200 -> st' = st)
    /\ (status r = 200 ->
        states st' = states st
        /\ exists key v,
             key <> "" /\ truthy v = true
             /\ user_choices st' = <[key := v]> (user_choices st)).
Proof.
  destruct (choice_view_effect env get_json st)
    as (r & st' & Hrun & [[Hcode Hsame] | (Hcode & Hst & Hins)]);
    exists r, st'; (split; [exact Hrun|]).
  - split; [tauto|]. split; [intros _; exact Hsame|].
    intros H200. destruct Hcode as [H|H]; rewrite H in H200; discriminate H200.
  - split; [tauto|]. split; [congruence|]. intros _. split; assumption.
Qed.

Lemma choice_view_outcomes_witness :
  exists r,
    App.record_choice demo_env (Returned (VStr "yes")) init = (Returned r, init)
    /\ status r = 500.
Proof.
  destruct (choice_view_outcomes demo_env (Returned (VStr "yes")) init)
    as (r & st' & Hrun & _ & Hkeep & _).
  assert (Hcode : status r = 500).
  { rewrite choice_view_run in Hrun. simpl in Hrun. now inversion Hrun. }
  exists r. split; [|exact Hcode].
  rewrite Hrun, (Hkeep ltac:(rewrite Hcode; discriminate)). reflexivity.
Defined.

(** X14: the health view on the running application.  It never changes
    the tracker.  When the three existence checks return, the answer is 200:
    the report carries [state_valid = true] (the state check never fails)
    and the current label, tells the three checks as they came out, and the
    status is ["healthy"] exactly when the template and the static root
    exist.  When one of the checks raises, the answer is 500 with status
    ["unhealthy"] and the error text, and no report. *)
Theorem health_check_running (world : World) (st : ValentineState) :
  reachable st ->
  (forall template_exists static_dir_exists video_exists,
      py_exists world "templates/index.html" = Returned template_exists ->
      py_exists world "static" = Returned static_dir_exists ->
      py_exists world "static/videos/valentine-video.mp4" = Returned video_exists ->
      exists r checks,
        App.health_check world st = (Returned r, st)
        /\ status r = 200
        /\ json_field "checks" r = Some (VDict checks)
        /\ dict_lookup "state_valid" checks = Some (VBool true)
        /\ dict_lookup "current_state" checks = Some (current_state st)
        /\ dict_lookup "template_exists" checks = Some (VBool template_exists)
        /\ dict_lookup "static_dir_exists" checks = Some (VBool static_dir_exists)
        /\ dict_lookup "video_exists" checks = Some (VBool video_exists)
        /\ json_field "status" r
           = Some (VStr (if template_exists && static_dir_exists
                         then "healthy" else "degraded")))
  /\ (forall e,
        py_exists world "templates/index.html" = Raised e
        \/ (exists template_exists,
              py_exists world "templates/index.html" = Returned template_exists
              /\ py_exists world "static" = Raised e)
        \/ (exists template_exists static_dir_exists,
              py_exists world "templates/index.html" = Returned template_exists
              /\ py_exists world "static" = Returned static_dir_exists
              /\ py_exists world "static/videos/valentine-video.mp4" = Raised e) ->
        App.health_check world st =
          (Returned (mkResponse 500
                       (Json [("status", VStr "unhealthy");
                              ("error", VStr (str_exn (env_of world) e))])), st)).
Proof.
  intros Hreach. destruct (reachable_tracker_inv st Hreach) as [Hst Hcur].
  assert (Hvalid : isinstance_str (current_state st)
                   && py_in_strs (current_state st) (states st) = true).
  { apply py_in_strs_member. rewrite Hst. exact Hcur. }
  rewrite health_check_eval; cbv zeta. rewrite Hvalid. split.
  - intros t s vid -> -> ->.
    eexists _, _. split; [reflexivity|]. split; [reflexivity|].
    split; [reflexivity|]. split; [reflexivity|]. split; [reflexivity|].
    split; [reflexivity|]. split; [reflexivity|]. split; [reflexivity|].
    unfold json_field, py_all; cbn [payload dict_lookup forallb].
    change (String.eqb "status" "status") with true. cbv iota.
    now rewrite andb_true_r.
  - intros e [-> | [(t & -> & ->) | (t & s & -> & -> & ->)]]; reflexivity.
Qed.

Lemma health_check_running_witness :
  (exists r,
      App.health_check demo_env
        (snd (handle_request demo_env (PostState "decision_state") init))
      = (Returned r, snd (handle_request demo_env (PostState "decision_state") init))
      /\ json_field "status" r = Some (VStr "healthy"))
  /\ App.health_check locked_templates init =
       (Returned (mkResponse 500
                    (Json [("status", VStr "unhealthy");
                           ("error",
                            VStr "[Errno 13] Permission denied: 'templates/index.html'")])),
        init).
Proof.
  split.
  - destruct (proj1 (health_check_running demo_env
                       (snd (handle_request demo_env (PostState "decision_state") init))
                       (reach_request _ _ _ reach_init))
                true true false eq_refl eq_refl eq_refl)
      as (r & checks & Hrun & _ & _ & _ & _ & _ & _ & _ & Hstatus).
    exists r. split; [exact Hrun | exact Hstatus].
  - apply (proj2 (health_check_running locked_templates init reach_init)
             (LibraryError "PermissionError"
                "[Errno 13] Permission denied: 'templates/index.html'")).
    left. reflexivity.
Defined.

(** ** The video view and the error handlers *)

Lemma prefix_app (a s : string) : String.prefix a (a ++ s) = true.
Proof.
  induction a as [|c a IH]; simpl.
  - destruct s; reflexivity.
  - destruct (Ascii.ascii_dec c c) as [_|Hne]; [exact IH | contradiction].
Qed.

(** X15: the video view answers with a response only for a file that
    passed both of its checks: it returns [r] exactly when the resolved
    path starts with the resolved video directory, the file exists, and
    [send_from_directory] (called with the directory, the name and the
    guessed MIME type or ["video/mp4"]) returns [r].  In every other case
    it raises HTTP 500, and it never touches the tracker. *)
Theorem serve_video_serves_checked_files
    (env : Env) (filename : string) (st : ValentineState) :
  snd (App.serve_video env filename st) = st
  /\ (forall r,
        fst (App.serve_video env filename st) = Returned r <->
        String.prefix (path_resolve env "static/videos")
                      (path_resolve env (path_join "static/videos" filename)) = true
        /\ path_exists env (path_join "static/videos" filename) = true
        /\ send_from_directory env "static/videos" filename
             (video_mimetype env filename) = Returned r)
  /\ (forall e,
        fst (App.serve_video env filename st) = Raised e -> e = HTTPException 500).
Proof.
  rewrite serve_video_run. cbn [fst snd]. split; [reflexivity|].
  destruct (String.prefix _ _), (path_exists env _); cbn [andb]; split;
    try (intros r; split; [intros H; discriminate H | intros (H1 & H2 & _); discriminate]);
    try (intros e H; now inversion H).
  - intros r. destruct (send_from_directory env _ _ _); split.
    + intros H. inversion H. auto.
    + intros (_ & _ & H). exact H.
    + intros H. discriminate H.
    + intros (_ & _ & H). discriminate H.
  - intros e. destruct (send_from_directory env _ _ _); intros H;
      [discriminate H | now inversion H].
Qed.

Lemma serve_video_serves_checked_files_witness :
  fst (App.serve_video (with_video demo_env) "valentine-video.mp4" init)
  = Returned (mkResponse 200
                (FileContents "static/videos" "valentine-video.mp4" "video/mp4")).
Proof.
  apply (proj1 (proj2 (serve_video_serves_checked_files
                         (with_video demo_env) "valentine-video.mp4" init))).
  split; [reflexivity|]. split; reflexivity.
Defined.

(** X16: the traversal guard compares strings, not path components: a
    resolved path that merely begins with the text of the resolved video
    directory passes it, so a name that resolves into a sibling such as
    [static/videos_private] is handed to [send_from_directory]. *)
Theorem serve_video_guard_is_textual
    (env : Env) (filename suffix : string) (st : ValentineState) :
  path_resolve env (path_join "static/videos" filename)
    = path_resolve env "static/videos" ++ suffix ->
  path_exists env (path_join "static/videos" filename) = true ->
  forall r,
    send_from_directory env "static/videos" filename (video_mimetype env filename)
      = Returned r ->
    App.serve_video env filename st = (Returned r, st).
Proof.
  intros Hres Hex r Hsend.
  rewrite serve_video_run, Hres, prefix_app, Hex, Hsend. reflexivity.
Qed.

Lemma serve_video_guard_is_textual_witness :
  path_resolve sibling_env (path_join "static/videos" "clip.mp4")
    = "/srv/valet/static/videos_private/clip.mp4"
  /\ App.serve_video sibling_env "clip.mp4" init =
       (Returned (mkResponse 200
                    (FileContents "static/videos" "clip.mp4" "video/mp4")), init).
Proof.
  split; [reflexivity|].
  apply (serve_video_guard_is_textual sibling_env "clip.mp4" "_private/clip.mp4");
    reflexivity.
Defined.

(** X17: no view lets an exception other than the video view's HTTP 500
    escape: every request to the other four routes returns a response, and
    a video request returns one or raises [HTTPException 500]. *)
Theorem views_contain_exceptions
    (world : World) (r : request) (st : ValentineState) :
  (exists resp, fst (handle_request world r st) = Returned resp)
  \/ (exists filename,
        r = GetVideo filename
        /\ fst (handle_request world r st) = Raised (HTTPException 500)).
Proof.
  destruct r as [|state_name|get_json| |filename]; cbn [handle_request].
  - left. rewrite index_eval; cbv zeta.
    destruct (py_exists world "static/videos/valentine-video.mp4");
      [destruct (py_exists world "templates/index.html") as [t|e];
       [destruct (negb t); [|destruct (render_template _ _ _)]|]|];
      eexists; reflexivity.
  - left. rewrite transition_state_run.
    destruct (py_in_strs _ _); eexists; reflexivity.
  - left. destruct (choice_view_effect (env_of world) get_json st)
      as (resp & st' & Hrun & _).
    exists resp. now rewrite Hrun.
  - left. destruct (health_check_returns world st) as (resp & Hrun).
    exists resp. now rewrite Hrun.
  - rewrite serve_video_eval. cbn [fst].
    assert (Hgiveup : exists fname, GetVideo filename = GetVideo fname
              /\ @Raised response (HTTPException 500) = Raised (HTTPException 500))
      by (exists filename; split; reflexivity).
    destruct (py_resolve world (path_join "static/videos" filename));
      [|right; exact Hgiveup].
    destruct (py_resolve world "static/videos"); [|right; exact Hgiveup].
    destruct (negb (String.prefix _ _)); [right; exact Hgiveup|].
    destruct (py_exists world _) as [present|e]; [|right; exact Hgiveup].
    destruct (negb present); [right; exact Hgiveup|].
    destruct (send_from_directory _ _ _ _) as [resp|e];
      [left; exists resp; reflexivity | right; exact Hgiveup].
Qed.

(** X18: what the client gets when the video view gives up.  Whether the
    path escapes the directory, the file is absent, or the file sender
    raises, the request is answered by [internal_error]: the error page
    rendered with code 500 and the "Something went wrong" message, under
    status 500. *)
Theorem video_failure_answered_by_500_page
    (env : Env) (filename : string) (st : ValentineState) :
  (String.prefix (path_resolve env "static/videos")
                 (path_resolve env (path_join "static/videos" filename)) = false
   \/ path_exists env (path_join "static/videos" filename) = false
   \/ exists e, send_from_directory env "static/videos" filename
                  (video_mimetype env filename) = Raised e) ->
  respond env (fst (App.serve_video env filename st)) = internal_error env
  /\ (forall page,
        render_template env "error.html"
          [("error_code", VInt 500);
           ("error_message",
            VStr "Something went wrong, but our love is unbreakable! ❤️")]
          = Returned page ->
        respond env (fst (App.serve_video env filename st))
          = Returned (mkResponse 500 page)).
Proof.
  intros Hfail.
  assert (Hraise : fst (App.serve_video env filename st) = Raised (HTTPException 500)).
  { rewrite serve_video_run. cbn [fst].
    destruct Hfail as [H | [H | [e H]]].
    - now rewrite H.
    - rewrite H, andb_false_r. reflexivity.
    - rewrite H. destruct (_ && _); reflexivity. }
  rewrite Hraise. split; [reflexivity|].
  intros page Hpage.
  change (respond env (Raised (HTTPException 500))) with (internal_error env).
  unfold internal_error. now rewrite Hpage.
Qed.

Lemma video_failure_answered_by_500_page_witness :
  respond demo_env (fst (App.serve_video demo_env "missing.mp4" init))
  = Returned (mkResponse 500
      (Page "error.html"
         [("error_code", VInt 500);
          ("error_message",
           VStr "Something went wrong, but our love is unbreakable! ❤️")])).
Proof.
  apply (proj2 (video_failure_answered_by_500_page demo_env "missing.mp4" init
                  (or_intror (or_introl eq_refl)))).
  reflexivity.
Defined.

(** X19: the registered error handlers answer under the code they are
    registered for: whenever [respond] ends in a response, its status is
    the one [http_status] reads off the view's outcome (the view's own
    status, or the code of the [HTTPException] that left it). *)
Theorem respond_keeps_status (env : Env) (o : outcome response) (r : response) :
  respond env o = Returned r ->
  status r = http_status o.
Proof.
  destruct o as [r0|e]; simpl.
  - intros H. now inversion H.
  - destruct e as [msg vs|msg|code|name msg]; try discriminate.
    unfold errorhandler.
    destruct (code =? 404) eqn:E404.
    + apply Z.eqb_eq in E404. subst code. unfold not_found_error.
      destruct (render_template env "error.html" _); intros H; now inversion H.
    + destruct (code =? 500) eqn:E500.
      * apply Z.eqb_eq in E500. subst code. unfold internal_error.
        destruct (render_template env "error.html" _); intros H; now inversion H.
      * destruct (code =? 413) eqn:E413.
        -- apply Z.eqb_eq in E413. subst code. unfold too_large.
           intros H. now inversion H.
        -- discriminate.
Qed.

Lemma respond_keeps_status_witness :
  status (mkResponse 404
            (Page "error.html"
               [("error_code", VInt 404);
                ("error_message",
                 VStr "Page not found, but love is everywhere! 💕")]))
  = http_status (Raised (HTTPException 404)).
Proof.
  apply (respond_keeps_status demo_env (Raised (HTTPException 404))).
  reflexivity.
Defined.

(** X20: the choice view reports the state it leaves.  On the running
    tracker, for every body: when the answer carries a [next_state], the
    tracker is in that state afterwards; when it carries none,
    [current_state] is what it was before the request. *)
Theorem choice_view_reports_next_state
    (env : Env) (get_json : outcome PyVal) (st : ValentineState) :
  reachable st ->
  exists r st',
    App.record_choice env get_json st = (Returned r, st')
    /\ match json_field "next_state" r with
       | Some L => current_state st' = L
       | None => current_state st' = current_state st
       end.
Proof.
  intros Hreach. destruct (reachable_tracker_inv st Hreach) as [Hst _].
  rewrite choice_view_run.
  destruct get_json as [data|e]; [|eexists _, _; split; reflexivity].
  destruct (truthy data); cbn [negb]; [|eexists _, _; split; reflexivity].
  destruct (py_get data "type") as [ty|e], (py_get data "value") as [v|e'];
    try (eexists _, _; split; reflexivity).
  destruct (negb (truthy ty) || negb (truthy v));
    [eexists _, _; split; reflexivity|].
  destruct ty as [| | | |key| |]; try (eexists _, _; split; reflexivity).
  cbv zeta.
  destruct (String.eqb key "valentine_response" && py_eq_str v "yes");
    [|destruct (String.eqb key "valentine_response"
                && py_in_strs v ["maybe"; "friends"])];
    eexists _, _; (split; [reflexivity|]);
    rewrite ?transition_to_run; cbn [states]; rewrite ?Hst; reflexivity.
Qed.

Lemma choice_view_reports_next_state_witness :
  exists r st',
    App.record_choice demo_env
      (Returned (VDict [("type", VStr "valentine_response");
                        ("value", VStr "maybe")])) init = (Returned r, st')
    /\ json_field "next_state" r = Some (VStr "gentle_exit_state")
    /\ current_state st' = VStr "gentle_exit_state".
Proof.
  destruct (choice_view_reports_next_state demo_env
              (Returned (VDict [("type", VStr "valentine_response");
                                ("value", VStr "maybe")])) init reach_init)
    as (r & st' & Hrun & Hnext).
  assert (Hfield : json_field "next_state" r = Some (VStr "gentle_exit_state")).
  { rewrite choice_view_run in Hrun. simpl in Hrun.
    inversion Hrun. reflexivity. }
  exists r, st'. split; [exact Hrun|]. split; [exact Hfield|].
  now rewrite Hfield in Hnext.
Defined.
